(** * Candlestick pattern detection: a shallow embedding of
      [candlestick_patterns.py] and the properties of its specification.

    Prices are modelled as exact rationals [Q] (the specification's data
    model takes them as real numbers); the decimal constants of the source
    ([0.1], [0.2], [0.5]) are the rationals [1/10], [1/5], [1/2].  Python
    exceptions are modelled by an error monad, so that "does not raise" is a
    statement about the value returned.  The pure functions of
    [advanced_analysis.py] ([analyze_price_movement],
    [analyze_market_structure], the Price Action Breakout branch of
    [analyze_stock_advanced]) follow the detector.

    The interpreter computes on binary64 numbers.  The module [Binary64]
    gives the derived columns, the rolling mean and the single-candle tier
    over these, evaluated by the kernel, to show where the two arithmetics
    part: a range [high - low] that overflows. *)

From Stdlib Require Import List String Bool Arith ZArith QArith Qabs Qminmax.
From Stdlib Require Import Lqa Lia.
From Stdlib Require PrimFloat.
Import ListNotations.

Open Scope string_scope.
Open Scope list_scope.
Open Scope Q_scope.

(* ================================================================= *)
(** ** Exceptions *)

Inductive exn : Type :=
| ValueError (msg : string)
| IndexError.

Inductive result (A : Type) : Type :=
| Ok (a : A)
| Raise (e : exn).

Arguments Ok {A} a.
Arguments Raise {A} e.

Definition bind {A B : Type} (m : result A) (k : A -> result B) : result B :=
  match m with
  | Ok a => k a
  | Raise e => Raise e
  end.

Notation "x <- m ;; k" := (bind m (fun x => k))
  (at level 61, m at next level, right associativity).

(* ================================================================= *)
(** ** Comparisons on prices *)

Definition Qlt_bool (x y : Q) : bool := negb (Qle_bool y x).

Declare Scope price_scope.
Delimit Scope price_scope with price.
Notation "x <=? y" := (Qle_bool x y) (at level 70, no associativity) : price_scope.
Notation "x <? y" := (Qlt_bool x y) (at level 70, no associativity) : price_scope.
Notation "x >? y" := (Qlt_bool y x) (at level 70, no associativity) : price_scope.
Open Scope price_scope.

(* ================================================================= *)
(** ** Data frames *)

(** The input [pd.DataFrame]: its column labels and its rows, oldest first.
    A row gives the cell of each column; only labels listed in [columns]
    are ever read. *)
Record DataFrame : Type := {
  columns : list string;
  rows : list (string -> Q)
}.

(** [len(df)]. *)
Definition len (frame : DataFrame) : nat := List.length (rows frame).

(** [df.empty]: some axis has length zero. *)
Definition empty (frame : DataFrame) : bool :=
  (len frame =? 0)%nat || (List.length (columns frame) =? 0)%nat.

(** [col in df.columns]. *)
Definition has_column (col : string) (frame : DataFrame) : bool :=
  existsb (String.eqb col) (columns frame).

(** A row of [self.df] once [_prepare_data] has added the derived columns. *)
Record Candle : Type := {
  open : Q;
  high : Q;
  low : Q;
  close : Q;
  body : Q;
  body_size : Q;
  upper_shadow : Q;
  lower_shadow : Q;
  total_size : Q;
  is_bullish : bool;
  is_bearish : bool
}.

(** [s.iloc[i]] on a sequence: a negative position counts from the end, a
    position out of range raises [IndexError]. *)
Definition iloc {A : Type} (s : list A) (i : Z) : result A :=
  let n := Z.of_nat (List.length s) in
  let pos := (if i <? 0 then n + i else i)%Z in
  if ((pos <? 0) || (n <=? pos))%Z then Raise IndexError
  else match nth_error s (Z.to_nat pos) with
       | Some a => Ok a
       | None => Raise IndexError
       end.

(* ================================================================= *)
(** ** Rolling mean *)

(** [Series.rolling(window, min_periods=1).mean()], computed as pandas does
    with a running sum and a count of observations: at position [i] the
    value that left the window ([i - window], if any) is removed and the
    value at [i] is added. *)
Definition add_mean (x : Q) (st : Q * nat) : Q * nat :=
  (fst st + x, S (snd st)).

Definition remove_mean (x : Q) (st : Q * nat) : Q * nat :=
  (fst st - x, pred (snd st)).

Definition calc_mean (st : Q * nat) : Q :=
  fst st / inject_Z (Z.of_nat (snd st)).

Fixpoint roll_mean (window : nat) (values : list Q) (i : nat)
                   (rest : list Q) (st : Q * nat) : list Q :=
  match rest with
  | [] => []
  | x :: rest' =>
      let st := if (window <=? i)%nat
                then remove_mean (nth (i - window) values 0) st
                else st in
      let st := add_mean x st in
      calc_mean st :: roll_mean window values (S i) rest' st
  end.

Definition rolling_mean (window : nat) (values : list Q) : list Q :=
  roll_mean window values 0 values (0, 0%nat).

(* ================================================================= *)
(** ** The detector *)

Record CandlestickPatternDetector : Type := {
  df : list Candle;
  avg_body_size : list Q;
  avg_total_size : list Q
}.

Definition required_cols : list string := ["open"; "high"; "low"; "close"].

(** The loop over [required_cols] of [_prepare_data]. *)
Fixpoint check_columns (cols : list string) (frame : DataFrame) : result unit :=
  match cols with
  | [] => Ok tt
  | col :: cols' =>
      if negb (has_column col frame)
      then Raise (ValueError ("Missing required column: " ++ col)%string)
      else check_columns cols' frame
  end.

(** The derived columns of one row. *)
Definition derive (r : string -> Q) : Candle :=
  let o := r "open" in
  let h := r "high" in
  let l := r "low" in
  let c := r "close" in
  let b := c - o in
  {| open := o; high := h; low := l; close := c;
     body := b;
     body_size := Qabs b;
     upper_shadow := h - Qmax o c;
     lower_shadow := Qmin o c - l;
     total_size := h - l;
     is_bullish := b >? 0;
     is_bearish := b <? 0 |}.

Definition _prepare_data (frame : DataFrame) : result CandlestickPatternDetector :=
  _ <- check_columns required_cols frame ;;
  let data := map derive (rows frame) in
  Ok {| df := data;
        avg_body_size := rolling_mean 20 (map body_size data);
        avg_total_size := rolling_mean 20 (map total_size data) |}.

(** [CandlestickPatternDetector(df)]. *)
Definition __init__ (frame : DataFrame) : result CandlestickPatternDetector :=
  _prepare_data frame.

(* ================================================================= *)
(** ** Single-candle predicates *)

Definition _is_doji (candle : Candle) (avg_total : Q) : bool :=
  body_size candle <=? 0.1 * total_size candle.

Definition _is_dragonfly_doji (candle : Candle) : bool :=
  (body_size candle <=? 0.1 * total_size candle) &&
  (upper_shadow candle <=? 0.1 * total_size candle) &&
  (lower_shadow candle >? 2 * body_size candle).

Definition _is_gravestone_doji (candle : Candle) : bool :=
  (body_size candle <=? 0.1 * total_size candle) &&
  (lower_shadow candle <=? 0.1 * total_size candle) &&
  (upper_shadow candle >? 2 * body_size candle).

Definition _is_long_legged_doji (candle : Candle) : bool :=
  (body_size candle <=? 0.1 * total_size candle) &&
  (upper_shadow candle >? 0.2 * total_size candle) &&
  (lower_shadow candle >? 0.2 * total_size candle).

Definition _is_hammer (candle : Candle) (avg_body : Q) : bool :=
  (lower_shadow candle >? 2 * avg_body) &&
  (upper_shadow candle <? avg_body) &&
  (body_size candle <? avg_body).

Definition _is_inverted_hammer (candle : Candle) (avg_body : Q) : bool :=
  (upper_shadow candle >? 2 * avg_body) &&
  (lower_shadow candle <? avg_body) &&
  (body_size candle <? avg_body).

Definition _is_hanging_man (candle : Candle) (avg_body : Q) : bool :=
  (lower_shadow candle >? 2 * avg_body) &&
  (upper_shadow candle <? avg_body) &&
  (body_size candle <? avg_body) &&
  is_bearish candle.

Definition _is_shooting_star (candle : Candle) (avg_body : Q) : bool :=
  (upper_shadow candle >? 2 * avg_body) &&
  (lower_shadow candle <? avg_body) &&
  (body_size candle <? avg_body) &&
  is_bearish candle.

Definition _is_spinning_top (candle : Candle) (avg_body : Q) : bool :=
  (upper_shadow candle >? avg_body) &&
  (lower_shadow candle >? avg_body) &&
  (body_size candle <? avg_body).

Definition _is_marubozu (candle : Candle) (avg_body : Q) : bool :=
  (body_size candle >? 2 * avg_body) &&
  (upper_shadow candle <? 0.1 * body_size candle) &&
  (lower_shadow candle <? 0.1 * body_size candle).

(* ================================================================= *)
(** ** Two-candle predicates *)

Definition _is_bullish_engulfing (current previous : Candle) : bool :=
  is_bearish previous &&
  is_bullish current &&
  (open current <? close previous) &&
  (close current >? open previous).

Definition _is_bearish_engulfing (current previous : Candle) : bool :=
  is_bullish previous &&
  is_bearish current &&
  (open current >? close previous) &&
  (close current <? open previous).

Definition _is_bullish_harami (current previous : Candle) : bool :=
  is_bearish previous &&
  is_bullish current &&
  (high current <? open previous) &&
  (low current >? close previous).

Definition _is_bearish_harami (current previous : Candle) : bool :=
  is_bullish previous &&
  is_bearish current &&
  (high current <? close previous) &&
  (low current >? open previous).

Definition _is_harami_cross (current previous : Candle) : bool :=
  (_is_bullish_harami current previous ||
   _is_bearish_harami current previous) &&
  _is_doji current (total_size current).

Definition _is_piercing_pattern (current previous : Candle) : bool :=
  is_bearish previous &&
  is_bullish current &&
  (open current <? low previous) &&
  (close current >? close previous + body_size previous / 2).

Definition _is_dark_cloud_cover (current previous : Candle) : bool :=
  is_bullish previous &&
  is_bearish current &&
  (open current >? high previous) &&
  (close current <? close previous - body_size previous / 2).

Definition _is_tweezer_tops (current previous : Candle) : bool :=
  (Qabs (high current - high previous) <? 0.1 * high current) &&
  is_bearish current && is_bullish previous.

Definition _is_tweezer_bottoms (current previous : Candle) : bool :=
  (Qabs (low current - low previous) <? 0.1 * low current) &&
  is_bullish current && is_bearish previous.

(* ================================================================= *)
(** ** Three-candle predicates *)

Definition _is_morning_star (first second third : Candle) : bool :=
  is_bearish first &&
  (body_size second <? 0.5 * body_size first) &&
  is_bullish third &&
  (close third >? (open first + close first) / 2).

Definition _is_evening_star (first second third : Candle) : bool :=
  is_bullish first &&
  (body_size second <? 0.5 * body_size first) &&
  is_bearish third &&
  (close third <? (open first + close first) / 2).

Definition _is_three_white_soldiers (first second third : Candle) : bool :=
  is_bullish first && is_bullish second && is_bullish third &&
  (open second >? open first) && (open third >? open second) &&
  (close second >? close first) && (close third >? close second).

Definition _is_three_black_crows (first second third : Candle) : bool :=
  is_bearish first && is_bearish second && is_bearish third &&
  (open second <? open first) && (open third <? open second) &&
  (close second <? close first) && (close third <? close second).

Definition _is_three_inside_up (first second third : Candle) : bool :=
  is_bearish first &&
  _is_bullish_harami second first &&
  is_bullish third && (close third >? high second).

Definition _is_three_inside_down (first second third : Candle) : bool :=
  is_bullish first &&
  _is_bearish_harami second first &&
  is_bearish third && (close third <? low second).

Definition _is_three_outside_up (first second third : Candle) : bool :=
  is_bearish first &&
  _is_bullish_engulfing second first &&
  is_bullish third && (close third >? high second).

Definition _is_three_outside_down (first second third : Candle) : bool :=
  is_bullish first &&
  _is_bearish_engulfing second first &&
  is_bearish third && (close third <? low second).

(* ================================================================= *)
(** ** Aggregation *)

(** [if cond: patterns.append(name)]. *)
Definition append_if (cond : bool) (name : string) (patterns : list string)
  : list string :=
  if cond then patterns ++ [name] else patterns.

Definition _detect_single_candlestick_patterns
    (self : CandlestickPatternDetector) : result (list string) :=
  let patterns := [] in
  if (List.length (df self) <? 1)%nat then Ok patterns else
  current <- iloc (df self) (-1) ;;
  avg_body <- iloc (avg_body_size self) (-1) ;;
  avg_total <- iloc (avg_total_size self) (-1) ;;
  let patterns :=
    if _is_doji current avg_total then
      if _is_dragonfly_doji current then patterns ++ ["Dragonfly Doji"]
      else if _is_gravestone_doji current then patterns ++ ["Gravestone Doji"]
      else if (upper_shadow current <=? 0.1 * total_size current) &&
              (lower_shadow current <=? 0.1 * total_size current)
           then patterns ++ ["Doji"]
      else if _is_long_legged_doji current then patterns ++ ["Long-legged Doji"]
      else patterns ++ ["Doji"]
    else patterns in
  let patterns := append_if (_is_hammer current avg_body) "Hammer" patterns in
  let patterns :=
    append_if (_is_inverted_hammer current avg_body) "Inverted Hammer" patterns in
  let patterns :=
    append_if (_is_hanging_man current avg_body) "Hanging Man" patterns in
  let patterns :=
    append_if (_is_shooting_star current avg_body) "Shooting Star" patterns in
  let patterns :=
    append_if (_is_spinning_top current avg_body) "Spinning Top" patterns in
  let patterns :=
    if _is_marubozu current avg_body then
      if is_bullish current then patterns ++ ["Bullish Marubozu"]
      else patterns ++ ["Bearish Marubozu"]
    else patterns in
  Ok patterns.

Definition _detect_two_candlestick_patterns
    (self : CandlestickPatternDetector) : result (list string) :=
  let patterns := [] in
  if (List.length (df self) <? 2)%nat then Ok patterns else
  current <- iloc (df self) (-1) ;;
  previous <- iloc (df self) (-2) ;;
  let patterns :=
    append_if (_is_bullish_engulfing current previous) "Bullish Engulfing" patterns in
  let patterns :=
    append_if (_is_bearish_engulfing current previous) "Bearish Engulfing" patterns in
  let patterns :=
    append_if (_is_bullish_harami current previous) "Bullish Harami" patterns in
  let patterns :=
    append_if (_is_bearish_harami current previous) "Bearish Harami" patterns in
  let patterns :=
    append_if (_is_harami_cross current previous) "Harami Cross" patterns in
  let patterns :=
    append_if (_is_piercing_pattern current previous) "Piercing Pattern" patterns in
  let patterns :=
    append_if (_is_dark_cloud_cover current previous) "Dark Cloud Cover" patterns in
  let patterns :=
    append_if (_is_tweezer_tops current previous) "Tweezer Tops" patterns in
  let patterns :=
    append_if (_is_tweezer_bottoms current previous) "Tweezer Bottoms" patterns in
  Ok patterns.

Definition _detect_three_candlestick_patterns
    (self : CandlestickPatternDetector) : result (list string) :=
  let patterns := [] in
  if (List.length (df self) <? 3)%nat then Ok patterns else
  first <- iloc (df self) (-3) ;;
  second <- iloc (df self) (-2) ;;
  third <- iloc (df self) (-1) ;;
  let patterns :=
    append_if (_is_morning_star first second third) "Morning Star" patterns in
  let patterns :=
    append_if (_is_evening_star first second third) "Evening Star" patterns in
  let patterns :=
    append_if (_is_three_white_soldiers first second third)
              "Three White Soldiers" patterns in
  let patterns :=
    append_if (_is_three_black_crows first second third)
              "Three Black Crows" patterns in
  let patterns :=
    append_if (_is_three_inside_up first second third) "Three Inside Up" patterns in
  let patterns :=
    append_if (_is_three_inside_down first second third)
              "Three Inside Down" patterns in
  let patterns :=
    append_if (_is_three_outside_up first second third)
              "Three Outside Up" patterns in
  let patterns :=
    append_if (_is_three_outside_down first second third)
              "Three Outside Down" patterns in
  Ok patterns.

Definition detect_all_patterns (self : CandlestickPatternDetector)
  : result (list string) :=
  let patterns := [] in
  single <- _detect_single_candlestick_patterns self ;;
  let patterns := patterns ++ single in
  two <- _detect_two_candlestick_patterns self ;;
  let patterns := patterns ++ two in
  three <- _detect_three_candlestick_patterns self ;;
  let patterns := patterns ++ three in
  Ok patterns.

(** The module-level entry point. *)
Definition detect_candlestick_patterns (frame : DataFrame) : result (list string) :=
  if empty frame || (len frame <? 1)%nat then Ok [] else
  detector <- __init__ frame ;;
  detect_all_patterns detector.

(* ================================================================= *)
(** ** Building frames *)

(** One row of a frame with the columns [open, high, low, close, volume]. *)
Definition ohlcv (o h l c v : Q) : string -> Q :=
  fun col =>
    if String.eqb col "open" then o
    else if String.eqb col "high" then h
    else if String.eqb col "low" then l
    else if String.eqb col "close" then c
    else v.

(** [pd.DataFrame({'open': ..., 'high': ..., 'low': ..., 'close': ...,
    'volume': ...})], given row by row. *)
Definition ohlcv_frame (data : list (Q * Q * Q * Q * Q)) : DataFrame :=
  {| columns := ["open"; "high"; "low"; "close"; "volume"];
     rows := map (fun '(o, h, l, c, v) => ohlcv o h l c v) data |}.

(** [pd.DataFrame()]. *)
Definition empty_df : DataFrame := {| columns := []; rows := [] |}.

(** [pd.DataFrame({'open': [100]})]. *)
Definition invalid_df : DataFrame :=
  {| columns := ["open"]; rows := [fun _ => 100] |}.

(** [pd.DataFrame(index=[0])]: one row, no column. *)
Definition no_column_df : DataFrame :=
  {| columns := []; rows := [fun _ => 0] |}.

(** The first nine rows shared by the frames of the test-suite. *)
Definition sample_prefix : list (Q * Q * Q * Q * Q) :=
  [ (100, 107,  98, 105, 1000); (105, 112, 103, 110, 1100);
    (110, 115, 108, 108, 1200); (108, 113, 105, 112, 1300);
    (112, 118, 110, 115, 1400); (115, 120, 112, 113, 1500);
    (113, 117, 110, 118, 1600); (118, 125, 115, 120, 1700);
    (120, 128, 118, 122, 1800) ].

Definition sample_data : DataFrame :=
  ohlcv_frame (sample_prefix ++ [(122, 130, 120, 125, 1900)]).

Definition doji_data : DataFrame :=
  ohlcv_frame (sample_prefix ++ [(100, 100.05, 99.95, 100, 1900)]).

Definition hammer_data : DataFrame :=
  ohlcv_frame (sample_prefix ++ [(100, 102, 90, 101, 1900)]).

Definition engulfing_data : DataFrame :=
  ohlcv_frame (firstn 8 sample_prefix ++
               [(120, 128, 118, 115, 1800); (95, 125, 94, 124, 1900)]).

Definition morning_star_data : DataFrame :=
  ohlcv_frame (firstn 7 sample_prefix ++
               [ (120, 125, 115, 118, 1700); (115, 128, 118, 115.1, 1800);
                 (110, 105, 94, 125, 1900) ]).

Definition single_row_df : DataFrame :=
  ohlcv_frame [(100, 105, 98, 102, 1000)].

(** A candle with [open = high = low = close]. *)
Definition flat_df : DataFrame := ohlcv_frame [(100, 100, 100, 100, 1000)].

(** Three candles: a bearish one, a small bearish one, a long bullish one
    without shadows. *)
Definition three_tier_df : DataFrame :=
  ohlcv_frame [ (110, 110, 100, 100, 1000); (100, 100, 99, 99, 1000);
                (98, 130, 98, 130, 1000) ].

(** A bearish candle followed by a small bullish candle inside its body. *)
Definition harami_cross_df : DataFrame :=
  ohlcv_frame [ (200, 205, 95, 100, 1000); (149, 180, 120, 150, 1000) ].

(** Two flat candles, then a candle whose high equals its low although its
    open and close lie below and above them. *)
Definition ill_formed_df : DataFrame :=
  ohlcv_frame [ (100, 100, 100, 100, 1000); (100, 100, 100, 100, 1000);
                (90, 100, 100, 110, 1000) ].

(** The detector built on a frame that has the required columns. *)
Definition detector_of (frame : DataFrame) : CandlestickPatternDetector :=
  let data := map derive (rows frame) in
  {| df := data;
     avg_body_size := rolling_mean 20 (map body_size data);
     avg_total_size := rolling_mean 20 (map total_size data) |}.

Definition three_tier_detector : CandlestickPatternDetector :=
  detector_of three_tier_df.

(* ================================================================= *)
(** ** Vocabulary of the specification *)

(** The labels of each tier, in the order of the specification's tables. *)
Definition single_table : list string :=
  [ "Doji"; "Dragonfly Doji"; "Gravestone Doji"; "Long-legged Doji";
    "Hammer"; "Inverted Hammer"; "Hanging Man"; "Shooting Star";
    "Spinning Top"; "Bullish Marubozu"; "Bearish Marubozu" ].

Definition two_table : list string :=
  [ "Bullish Engulfing"; "Bearish Engulfing"; "Bullish Harami";
    "Bearish Harami"; "Harami Cross"; "Piercing Pattern";
    "Dark Cloud Cover"; "Tweezer Tops"; "Tweezer Bottoms" ].

Definition three_table : list string :=
  [ "Morning Star"; "Evening Star"; "Three White Soldiers";
    "Three Black Crows"; "Three Inside Up"; "Three Inside Down";
    "Three Outside Up"; "Three Outside Down" ].

Definition pattern_table : list string :=
  single_table ++ two_table ++ three_table.

(** Membership of a label in a table. *)
Definition mem (table : list string) (name : string) : bool :=
  existsb (String.eqb name) table.

Definition doji_family : list string :=
  [ "Dragonfly Doji"; "Gravestone Doji"; "Doji"; "Long-legged Doji" ].


(** [subseq l table]: [l] is [table] with some entries left out, the others
    in the order of [table]. *)
Inductive subseq {A : Type} : list A -> list A -> Prop :=
| subseq_nil : subseq [] []
| subseq_keep x l table : subseq l table -> subseq (x :: l) (x :: table)
| subseq_drop x l table : subseq l table -> subseq l (x :: table).

(** First match wins: the label of the first condition that holds. *)
Fixpoint first_match (rules : list (bool * string)) : list string :=
  match rules with
  | [] => []
  | (cond, name) :: rules' => if cond then [name] else first_match rules'
  end.

(** The conditions of the Doji family in the priority order of the
    specification, each one standing on its own. *)
Definition doji_priority (c : Candle) : list (bool * string) :=
  let doji := body_size c <=? 0.1 * total_size c in
  [ (doji && (upper_shadow c <=? 0.1 * total_size c)
          && (lower_shadow c >? 2 * body_size c), "Dragonfly Doji");
    (doji && (lower_shadow c <=? 0.1 * total_size c)
          && (upper_shadow c >? 2 * body_size c), "Gravestone Doji");
    (doji && (upper_shadow c <=? 0.1 * total_size c)
          && (lower_shadow c <=? 0.1 * total_size c), "Doji");
    (doji && (upper_shadow c >? 0.2 * total_size c)
          && (lower_shadow c >? 0.2 * total_size c), "Long-legged Doji");
    (doji, "Doji") ].

Definition Qsum (l : list Q) : Q := fold_right Qplus 0 l.

(** The arithmetic mean of a sample. *)
Definition mean (l : list Q) : Q :=
  Qsum l / inject_Z (Z.of_nat (List.length l)).

(** The trailing window of the specification: the most recent
    [min window (i+1)] values, ending at and including position [i]. *)
Definition trailing_window (window i : nat) (values : list Q) : list Q :=
  let n := Nat.min window (i + 1) in
  firstn n (skipn (i + 1 - n) values).

(** The values the accumulator of [roll_mean] holds before position [i] is
    processed. *)
Definition held (window i : nat) (values : list Q) : list Q :=
  firstn (Nat.min window i) (skipn (i - Nat.min window i) values).

(** A candle whose extremes bound its open and close. *)
Definition well_formed (c : Candle) : Prop :=
  low c <= open c /\ low c <= close c /\ open c <= high c /\ close c <= high c.

(** ** Rule tables

    The specification describes the aggregator as the evaluation of a table
    of (condition, label) entries in a fixed order; [collect] keeps the
    label of every entry whose condition holds. *)
Definition collect (rules : list (bool * string)) : list string :=
  flat_map (fun r : bool * string => if fst r then [snd r] else []) rules.

(** The single-candle entries outside the Doji family. *)
Definition single_rules (c : Candle) (avg_body : Q) : list (bool * string) :=
  [ (_is_hammer c avg_body, "Hammer");
    (_is_inverted_hammer c avg_body, "Inverted Hammer");
    (_is_hanging_man c avg_body, "Hanging Man");
    (_is_shooting_star c avg_body, "Shooting Star");
    (_is_spinning_top c avg_body, "Spinning Top");
    (_is_marubozu c avg_body && is_bullish c, "Bullish Marubozu");
    (_is_marubozu c avg_body && negb (is_bullish c), "Bearish Marubozu") ].

Definition two_rules (current previous : Candle) : list (bool * string) :=
  [ (_is_bullish_engulfing current previous, "Bullish Engulfing");
    (_is_bearish_engulfing current previous, "Bearish Engulfing");
    (_is_bullish_harami current previous, "Bullish Harami");
    (_is_bearish_harami current previous, "Bearish Harami");
    (_is_harami_cross current previous, "Harami Cross");
    (_is_piercing_pattern current previous, "Piercing Pattern");
    (_is_dark_cloud_cover current previous, "Dark Cloud Cover");
    (_is_tweezer_tops current previous, "Tweezer Tops");
    (_is_tweezer_bottoms current previous, "Tweezer Bottoms") ].

Definition three_rules (first second third : Candle) : list (bool * string) :=
  [ (_is_morning_star first second third, "Morning Star");
    (_is_evening_star first second third, "Evening Star");
    (_is_three_white_soldiers first second third, "Three White Soldiers");
    (_is_three_black_crows first second third, "Three Black Crows");
    (_is_three_inside_up first second third, "Three Inside Up");
    (_is_three_inside_down first second third, "Three Inside Down");
    (_is_three_outside_up first second third, "Three Outside Up");
    (_is_three_outside_down first second third, "Three Outside Down") ].

(* ================================================================= *)
(** ** Descriptions *)

(** The [descriptions] dictionary of [get_pattern_description], in the
    order of the source. *)
Definition descriptions : list (string * string) :=
  [
    ("Doji",
     "A doji occurs when the open and close prices are virtually equal, indicating indecision in the market.");
    ("Hammer",
     "A bullish reversal pattern with a small body at the top and a long lower shadow.");
    ("Inverted Hammer",
     "A bullish reversal pattern with a small body at the bottom and a long upper shadow.");
    ("Hanging Man",
     "A bearish reversal pattern that looks like a hammer but appears after an uptrend.");
    ("Shooting Star",
     "A bearish reversal pattern with a small body at the bottom and a long upper shadow.");
    ("Spinning Top",
     "A pattern indicating indecision with small body and long shadows.");
    ("Bullish Marubozu",
     "A strong bullish candle with no shadows.");
    ("Bearish Marubozu",
     "A strong bearish candle with no shadows.");
    ("Dragonfly Doji",
     "A doji with a long lower shadow and virtually no upper shadow.");
    ("Gravestone Doji",
     "A doji with a long upper shadow and virtually no lower shadow.");
    ("Long-legged Doji",
     "A doji with long upper and lower shadows.");
    ("Bullish Engulfing",
     "A bullish reversal pattern where the current candle completely engulfs the previous bearish candle.");
    ("Bearish Engulfing",
     "A bearish reversal pattern where the current candle completely engulfs the previous bullish candle.");
    ("Bullish Harami",
     "A bullish reversal pattern where a small bullish candle is contained within the previous bearish candle.");
    ("Bearish Harami",
     "A bearish reversal pattern where a small bearish candle is contained within the previous bullish candle.");
    ("Harami Cross",
     "A harami pattern where the second candle is a doji.");
    ("Piercing Pattern",
     "A bullish reversal pattern where the current candle opens below the previous low but closes above the midpoint.");
    ("Dark Cloud Cover",
     "A bearish reversal pattern where the current candle opens above the previous high but closes below the midpoint.");
    ("Tweezer Tops",
     "Two candles with identical highs, indicating resistance.");
    ("Tweezer Bottoms",
     "Two candles with identical lows, indicating support.");
    ("Morning Star",
     "A bullish reversal pattern with a bearish candle, a small-bodied candle, and a bullish candle.");
    ("Evening Star",
     "A bearish reversal pattern with a bullish candle, a small-bodied candle, and a bearish candle.");
    ("Three White Soldiers",
     "Three consecutive bullish candles with higher opens and closes.");
    ("Three Black Crows",
     "Three consecutive bearish candles with lower opens and closes.");
    ("Three Inside Up",
     "A bullish reversal pattern with a bearish candle, a harami, and a bullish candle.");
    ("Three Inside Down",
     "A bearish reversal pattern with a bullish candle, a harami, and a bearish candle.");
    ("Three Outside Up",
     "A bullish reversal pattern with a bearish candle, an engulfing, and a bullish candle.");
    ("Three Outside Down",
     "A bearish reversal pattern with a bullish candle, an engulfing, and a bearish candle.") ].

(** [d.get(key, default)] on a dictionary given as its list of items. *)
Fixpoint dict_get (d : list (string * string)) (key default : string) : string :=
  match d with
  | [] => default
  | (k, v) :: d' => if String.eqb k key then v else dict_get d' key default
  end.

Definition get_pattern_description (pattern_name : string) : string :=
  dict_get descriptions pattern_name "Pattern description not available.".

(** The frame of [hammer_data] with a bearish last candle. *)
Definition hanging_man_df : DataFrame :=
  ohlcv_frame (sample_prefix ++ [(101.5, 102, 90, 100, 1900)]).

(** ** A frame for every label *)

(** The rows reflected about the price [k]: what rose falls, and upper
    shadows become lower shadows. *)
Definition mirror (k : Q) (data : list (Q * Q * Q * Q * Q))
  : list (Q * Q * Q * Q * Q) :=
  map (fun '(o, h, l, c, v) => (k - o, k - l, k - h, k - c, v)) data.

Definition shooting_star_df : DataFrame :=
  ohlcv_frame (mirror 300 (sample_prefix ++ [(100, 102, 90, 101, 1900)])).

Definition three_black_crows_df : DataFrame :=
  ohlcv_frame (mirror 300 (sample_prefix ++ [(122, 130, 120, 125, 1900)])).

Definition evening_star_df : DataFrame :=
  ohlcv_frame (mirror 300 [ (110, 110, 100, 100, 1000); (100, 100, 99, 99, 1000);
                            (98, 130, 98, 130, 1000) ]).

Definition bearish_harami_df : DataFrame :=
  ohlcv_frame (mirror 300 [ (200, 205, 95, 100, 1000);
                            (149, 180, 120, 150, 1000) ]).

(** A long candle, then a small body between two long shadows. *)
Definition spinning_top_df : DataFrame :=
  ohlcv_frame [ (100, 121, 99, 120, 1000); (110, 130, 90, 111, 1000) ].

(** A bearish candle, a bullish one inside its body, a close above both. *)
Definition inside_up_rows : list (Q * Q * Q * Q * Q) :=
  [ (200, 205, 95, 100, 1000); (140, 160, 130, 150, 1000);
    (150, 170, 145, 165, 1000) ].

(** A bearish candle, a bullish one around its body, a close above both. *)
Definition outside_up_rows : list (Q * Q * Q * Q * Q) :=
  [ (110, 112, 98, 100, 1000); (95, 120, 94, 115, 1000);
    (115, 130, 114, 125, 1000) ].

Definition inside_up_df : DataFrame := ohlcv_frame inside_up_rows.
Definition inside_down_df : DataFrame := ohlcv_frame (mirror 300 inside_up_rows).
Definition outside_up_df : DataFrame := ohlcv_frame outside_up_rows.
Definition outside_down_df : DataFrame := ohlcv_frame (mirror 300 outside_up_rows).

(** For each label, a frame on which the detector emits it. *)
Definition exemplars : list (string * DataFrame) :=
  [ ("Doji", flat_df); ("Dragonfly Doji", hammer_data);
    ("Gravestone Doji", shooting_star_df); ("Long-legged Doji", doji_data);
    ("Hammer", hammer_data); ("Inverted Hammer", shooting_star_df);
    ("Hanging Man", hanging_man_df); ("Shooting Star", shooting_star_df);
    ("Spinning Top", spinning_top_df); ("Bullish Marubozu", three_tier_df);
    ("Bearish Marubozu", evening_star_df);
    ("Bullish Engulfing", three_tier_df); ("Bearish Engulfing", evening_star_df);
    ("Bullish Harami", harami_cross_df); ("Bearish Harami", bearish_harami_df);
    ("Harami Cross", harami_cross_df); ("Piercing Pattern", three_tier_df);
    ("Dark Cloud Cover", evening_star_df); ("Tweezer Tops", evening_star_df);
    ("Tweezer Bottoms", three_tier_df);
    ("Morning Star", three_tier_df); ("Evening Star", evening_star_df);
    ("Three White Soldiers", sample_data);
    ("Three Black Crows", three_black_crows_df);
    ("Three Inside Up", inside_up_df); ("Three Inside Down", inside_down_df);
    ("Three Outside Up", outside_up_df); ("Three Outside Down", outside_down_df) ].

(** [name in detect_candlestick_patterns(frame)]. *)
Definition emits (frame : DataFrame) (name : string) : bool :=
  match detect_candlestick_patterns frame with
  | Ok out => existsb (String.eqb name) out
  | Raise _ => false
  end.

(* ================================================================= *)
(** ** Directions and columns *)




(** Two rows with the same open, high, low and close. *)
Definition same_ohlc (r1 r2 : string -> Q) : Prop :=
  r1 "open" = r2 "open" /\ r1 "high" = r2 "high" /\
  r1 "low" = r2 "low" /\ r1 "close" = r2 "close".

(** A frame for the properties of columns. *)
Definition hammer_without_volume : DataFrame :=
  {| columns := ["close"; "low"; "high"; "open"];
     rows := map (fun '(o, h, l, c, v) => ohlcv o h l c 0)
               (sample_prefix ++ [(100, 102, 90, 101, 1900)]) |}.

(** The detector of [hammer_data] cut down to its last three candles and
    its last average body size, with averages of the range of its own. *)
Definition hammer_tail_detector : CandlestickPatternDetector :=
  let self := detector_of hammer_data in
  {| df := skipn 7 (df self);
     avg_body_size := skipn 9 (avg_body_size self);
     avg_total_size := [0; 0; 0] |}.

(** Eight candles, each one point above the one before; and eight equal
    candles. *)
Definition staircase_df : DataFrame :=
  ohlcv_frame [ (1, 2, 0, 1, 1000); (2, 3, 1, 2, 1000); (3, 4, 2, 3, 1000);
                (4, 5, 3, 4, 1000); (5, 6, 4, 5, 1000); (6, 7, 5, 6, 1000);
                (7, 8, 6, 7, 1000); (8, 9, 7, 8, 1000) ].

Definition plateau_df : DataFrame :=
  ohlcv_frame (repeat (100, 101, 99, 100, 1000) 8).

(* ================================================================= *)
(** ** [advanced_analysis.py] *)

(** The exceptions met in this module: those of the detector and of
    [iloc], and the [KeyError] of a column that is absent. *)
Inductive error : Type :=
| KeyError (key : string)
| Exn (e : exn).

Inductive outcome (A : Type) : Type :=
| Return (a : A)
| Throw (e : error).

Arguments Return {A} a.
Arguments Throw {A} e.

Definition obind {A B : Type} (m : outcome A) (k : A -> outcome B) : outcome B :=
  match m with
  | Return a => k a
  | Throw e => Throw e
  end.

Notation "x <~ m ;; k" := (obind m (fun x => k))
  (at level 61, m at next level, right associativity).

Definition lift {A : Type} (m : result A) : outcome A :=
  match m with
  | Ok a => Return a
  | Raise e => Throw (Exn e)
  end.

(** [df[key]]: the column as a sequence. *)
Definition getitem (frame : DataFrame) (key : string) : outcome (list Q) :=
  if has_column key frame then Return (map (fun r => r key) (rows frame))
  else Throw (KeyError key).

Definition identify_candlestick_patterns (frame : DataFrame)
  : result (list string) :=
  detect_candlestick_patterns frame.

(** [analyze_price_movement].  The division is exact; a start price of
    zero, which the source's floating-point division turns into an infinity
    or a NaN, is outside the properties proved below. *)
Definition analyze_price_movement (frame : DataFrame) (duration_days : Z)
    (target_percentage : Q) (direction : string) : outcome (Q * bool) :=
  if (Z.of_nat (len frame) <? duration_days)%Z then Return (0, false) else
  close_col <~ getitem frame "close" ;;
  start_price <~ lift (iloc close_col (- duration_days)) ;;
  close_col <~ getitem frame "close" ;;
  current_price <~ lift (iloc close_col (-1)) ;;
  let percentage_change := ((current_price - start_price) / start_price) * 100 in
  let met_criteria :=
    if String.eqb direction "up"
    then target_percentage <=? percentage_change
    else percentage_change <=? - target_percentage in
  Return (percentage_change, met_criteria).

(** [data.take(i, mode='clip')]: a position beyond an end is the end. *)
Definition take_clip (data : list Q) (i : Z) : Q :=
  nth (Z.to_nat (Z.max 0 (Z.min i (Z.of_nat (List.length data) - 1)))) data 0.

(** [scipy.signal.argrelextrema(data, comparator, order=order)[0]] on a
    one-dimensional array, with the default mode [clip]: the positions whose
    value compares true with both neighbours at every distance from 1 to
    [order]. *)
Definition argrelextrema (data : list Q) (comparator : Q -> Q -> bool)
    (order : nat) : list nat :=
  filter
    (fun loc =>
       forallb
         (fun shift =>
            comparator (take_clip data (Z.of_nat loc))
                       (take_clip data (Z.of_nat loc + Z.of_nat shift)) &&
            comparator (take_clip data (Z.of_nat loc))
                       (take_clip data (Z.of_nat loc - Z.of_nat shift)))
         (seq 1 order))
    (seq 0 (List.length data)).

(** [np.greater_equal] and [np.less_equal]. *)
Definition greater_equal (a b : Q) : bool := b <=? a.
Definition less_equal (a b : Q) : bool := a <=? b.

(** [a[-n:]]: the last [n] entries. *)
Definition last_entries {A : Type} (n : nat) (a : list A) : list A :=
  skipn (List.length a - n) a.

Definition analyze_market_structure (frame : DataFrame) : outcome string :=
  let window := 5%nat in
  high_col <~ getitem frame "high" ;;
  let local_max := argrelextrema high_col greater_equal window in
  low_col <~ getitem frame "low" ;;
  let local_min := argrelextrema low_col less_equal window in
  high_col <~ getitem frame "high" ;;
  let recent_max := map (fun i => nth i high_col 0) (last_entries 3 local_max) in
  low_col <~ getitem frame "low" ;;
  let recent_min := map (fun i => nth i low_col 0) (last_entries 3 local_min) in
  if (2 <=? List.length recent_max)%nat && (2 <=? List.length recent_min)%nat
  then
    max_last <~ lift (iloc recent_max (-1)) ;;
    max_prev <~ lift (iloc recent_max (-2)) ;;
    let higher_highs := max_last >? max_prev in
    min_last <~ lift (iloc recent_min (-1)) ;;
    min_prev <~ lift (iloc recent_min (-2)) ;;
    let higher_lows := min_last >? min_prev in
    if higher_highs && higher_lows then Return "Uptrend"
    else if negb higher_highs && negb higher_lows then Return "Downtrend"
    else Return "Sideways"
  else Return "Undefined".

(** [str.lower] on ASCII text, and [sub in s]. *)
Definition lower_ascii (c : Ascii.ascii) : Ascii.ascii :=
  let n := Ascii.nat_of_ascii c in
  if ((65 <=? n) && (n <=? 90))%nat then Ascii.ascii_of_nat (n + 32) else c.

Fixpoint lower (s : string) : string :=
  match s with
  | EmptyString => EmptyString
  | String c s' => String (lower_ascii c) (lower s')
  end.

Fixpoint contains (sub s : string) : bool :=
  String.prefix sub s ||
  match s with
  | EmptyString => false
  | String _ s' => contains sub s'
  end.

(** The keyword lists of the Price Action Breakout strategy of
    [analyze_stock_advanced]. *)
Definition bullish_keywords : list string :=
  [ "bullish"; "hammer"; "inverted hammer"; "morning star";
    "three white soldiers"; "piercing"; "bullish engulfing";
    "bullish harami"; "three inside up"; "three outside up" ].

Definition bearish_keywords : list string :=
  [ "bearish"; "hanging man"; "shooting star"; "evening star";
    "three black crows"; "dark cloud cover"; "bearish engulfing";
    "bearish harami"; "three inside down"; "three outside down" ].

Definition bullish_patterns (patterns : list string) : list string :=
  filter (fun p => existsb (fun bullish => contains bullish (lower p))
                     bullish_keywords) patterns.

Definition bearish_patterns (patterns : list string) : list string :=
  filter (fun p => existsb (fun bearish => contains bearish (lower p))
                     bearish_keywords) patterns.


(** The labels of the detector that the keyword lists count as bullish and
    as bearish. *)
Definition counted_bullish : list string :=
  [ "Hammer"; "Inverted Hammer"; "Bullish Marubozu"; "Bullish Engulfing";
    "Bullish Harami"; "Piercing Pattern"; "Morning Star";
    "Three White Soldiers"; "Three Inside Up"; "Three Outside Up" ].

Definition counted_bearish : list string :=
  [ "Hanging Man"; "Shooting Star"; "Bearish Marubozu"; "Bearish Engulfing";
    "Bearish Harami"; "Dark Cloud Cover"; "Evening Star"; "Three Black Crows";
    "Three Inside Down"; "Three Outside Down" ].

(* ================================================================= *)
(** ** The numeric path in binary64 *)

(** The interpreter computes on IEEE 754 binary64 numbers: every operation
    rounds to the nearest representable number, and a result beyond the
    largest finite one is [infinity].  This module gives the derived
    columns, the rolling mean and the single-candle tier once more over
    these numbers, for a frame given by its four required columns.  The
    decimal constants of the source are read as the interpreter reads them,
    as the nearest binary64 number; the count of the rolling mean is kept as
    a number of the same kind, which is exact below [2^53]. *)
Module Binary64.
Import PrimFloat.
#[local] Set Warnings "-inexact-float".
Local Open Scope float_scope.
Local Notation "x >? y" := (ltb y x) (at level 70, no associativity) : float_scope.

Record Candle : Type := {
  open : float;
  high : float;
  low : float;
  close : float;
  body : float;
  body_size : float;
  upper_shadow : float;
  lower_shadow : float;
  total_size : float;
  is_bullish : bool;
  is_bearish : bool
}.

(** [max(axis=1)] and [min(axis=1)] over the two columns [open], [close]. *)
Definition max (x y : float) : float := if x <? y then y else x.
Definition min (x y : float) : float := if y <? x then y else x.

Definition derive (r : float * float * float * float) : Candle :=
  let '(o, h, l, c) := r in
  let b := c - o in
  {| open := o; high := h; low := l; close := c;
     body := b;
     body_size := abs b;
     upper_shadow := h - max o c;
     lower_shadow := min o c - l;
     total_size := h - l;
     is_bullish := b >? 0;
     is_bearish := b <? 0 |}.

Definition add_mean (x : float) (st : float * float) : float * float :=
  (fst st + x, snd st + 1).

Definition remove_mean (x : float) (st : float * float) : float * float :=
  (fst st - x, snd st - 1).

Definition calc_mean (st : float * float) : float := fst st / snd st.

Fixpoint roll_mean (window : nat) (values : list float) (i : nat)
                   (rest : list float) (st : float * float) : list float :=
  match rest with
  | [] => []
  | x :: rest' =>
      let st := if (window <=? i)%nat
                then remove_mean (nth (i - window) values 0) st
                else st in
      let st := add_mean x st in
      calc_mean st :: roll_mean window values (S i) rest' st
  end.

Definition rolling_mean (window : nat) (values : list float) : list float :=
  roll_mean window values 0 values (0, 0).

Record CandlestickPatternDetector : Type := {
  df : list Candle;
  avg_body_size : list float;
  avg_total_size : list float
}.

Definition _prepare_data (frame : list (float * float * float * float))
  : CandlestickPatternDetector :=
  let data := map derive frame in
  {| df := data;
     avg_body_size := rolling_mean 20 (map body_size data);
     avg_total_size := rolling_mean 20 (map total_size data) |}.

Definition _is_doji (candle : Candle) (avg_total : float) : bool :=
  body_size candle <=? 0.1 * total_size candle.

Definition _is_dragonfly_doji (candle : Candle) : bool :=
  (body_size candle <=? 0.1 * total_size candle) &&
  (upper_shadow candle <=? 0.1 * total_size candle) &&
  (lower_shadow candle >? 2 * body_size candle).

Definition _is_gravestone_doji (candle : Candle) : bool :=
  (body_size candle <=? 0.1 * total_size candle) &&
  (lower_shadow candle <=? 0.1 * total_size candle) &&
  (upper_shadow candle >? 2 * body_size candle).

Definition _is_long_legged_doji (candle : Candle) : bool :=
  (body_size candle <=? 0.1 * total_size candle) &&
  (upper_shadow candle >? 0.2 * total_size candle) &&
  (lower_shadow candle >? 0.2 * total_size candle).

Definition _is_hammer (candle : Candle) (avg_body : float) : bool :=
  (lower_shadow candle >? 2 * avg_body) &&
  (upper_shadow candle <? avg_body) &&
  (body_size candle <? avg_body).

Definition _is_inverted_hammer (candle : Candle) (avg_body : float) : bool :=
  (upper_shadow candle >? 2 * avg_body) &&
  (lower_shadow candle <? avg_body) &&
  (body_size candle <? avg_body).

Definition _is_hanging_man (candle : Candle) (avg_body : float) : bool :=
  (lower_shadow candle >? 2 * avg_body) &&
  (upper_shadow candle <? avg_body) &&
  (body_size candle <? avg_body) &&
  is_bearish candle.

Definition _is_shooting_star (candle : Candle) (avg_body : float) : bool :=
  (upper_shadow candle >? 2 * avg_body) &&
  (lower_shadow candle <? avg_body) &&
  (body_size candle <? avg_body) &&
  is_bearish candle.

Definition _is_spinning_top (candle : Candle) (avg_body : float) : bool :=
  (upper_shadow candle >? avg_body) &&
  (lower_shadow candle >? avg_body) &&
  (body_size candle <? avg_body).

Definition _is_marubozu (candle : Candle) (avg_body : float) : bool :=
  (body_size candle >? 2 * avg_body) &&
  (upper_shadow candle <? 0.1 * body_size candle) &&
  (lower_shadow candle <? 0.1 * body_size candle).

Definition _detect_single_candlestick_patterns
    (self : CandlestickPatternDetector) : result (list string) :=
  let patterns := [] in
  if (List.length (df self) <? 1)%nat then Ok patterns else
  current <- iloc (df self) (-1) ;;
  avg_body <- iloc (avg_body_size self) (-1) ;;
  avg_total <- iloc (avg_total_size self) (-1) ;;
  let patterns :=
    if _is_doji current avg_total then
      if _is_dragonfly_doji current then patterns ++ ["Dragonfly Doji"]
      else if _is_gravestone_doji current then patterns ++ ["Gravestone Doji"]
      else if (upper_shadow current <=? 0.1 * total_size current) &&
              (lower_shadow current <=? 0.1 * total_size current)
           then patterns ++ ["Doji"]
      else if _is_long_legged_doji current then patterns ++ ["Long-legged Doji"]
      else patterns ++ ["Doji"]
    else patterns in
  let patterns := append_if (_is_hammer current avg_body) "Hammer" patterns in
  let patterns :=
    append_if (_is_inverted_hammer current avg_body) "Inverted Hammer" patterns in
  let patterns :=
    append_if (_is_hanging_man current avg_body) "Hanging Man" patterns in
  let patterns :=
    append_if (_is_shooting_star current avg_body) "Shooting Star" patterns in
  let patterns :=
    append_if (_is_spinning_top current avg_body) "Spinning Top" patterns in
  let patterns :=
    if _is_marubozu current avg_body then
      if is_bullish current then patterns ++ ["Bullish Marubozu"]
      else patterns ++ ["Bearish Marubozu"]
    else patterns in
  Ok patterns.

(** [low <= open, close <= high], and the four prices are finite. *)
Definition well_formed (r : float * float * float * float) : bool :=
  let '(o, h, l, c) := r in
  (l <=? o) && (l <=? c) && (o <=? h) && (c <=? h) &&
  (neg_infinity <? l) && (h <? infinity).


(** The first nine rows of the test-suite and its hammer. *)
Definition hammer_rows : list (float * float * float * float) :=
  [ (100, 107,  98, 105); (105, 112, 103, 110); (110, 115, 108, 108);
    (108, 113, 105, 112); (112, 118, 110, 115); (115, 120, 112, 113);
    (113, 117, 110, 118); (118, 125, 115, 120); (120, 128, 118, 122);
    (100, 102, 90, 101) ].

End Binary64.

(* ================================================================= *)
(** * Properties *)

(** ** Comparisons *)

Lemma Qlt_bool_iff (x y : Q) : (x <? y) = true <-> x < y.
Proof.
  unfold Qlt_bool. rewrite negb_true_iff.
  split; intro H.
  - apply Qnot_le_lt. intro Hle. apply Qle_bool_iff in Hle. congruence.
  - destruct (Qle_bool y x) eqn:E; trivial.
    apply Qle_bool_iff in E. lra.
Qed.

Lemma Qle_bool_false_iff (x y : Q) : (x <=? y) = false <-> y < x.
Proof.
  rewrite <- Qlt_bool_iff. unfold Qlt_bool.
  destruct (Qle_bool x y); simpl; intuition congruence.
Qed.

Lemma Qlt_bool_false_iff (x y : Q) : (x <? y) = false <-> y <= x.
Proof.
  unfold Qlt_bool. rewrite negb_false_iff. apply Qle_bool_iff.
Qed.

(** Turns the boolean comparisons of the context and of the goal into
    propositions on [Q]. *)
Ltac reflect_cmp :=
  repeat match goal with
    | H : (_ && _) = true |- _ => apply andb_true_iff in H; destruct H
    | H : Qle_bool _ _ = true |- _ => apply Qle_bool_iff in H
    | H : Qle_bool _ _ = false |- _ => apply Qle_bool_false_iff in H
    | H : Qlt_bool _ _ = true |- _ => apply Qlt_bool_iff in H
    | H : Qlt_bool _ _ = false |- _ => apply Qlt_bool_false_iff in H
    | |- Qle_bool _ _ = true => apply Qle_bool_iff
    | |- Qle_bool _ _ = false => apply Qle_bool_false_iff
    | |- Qlt_bool _ _ = true => apply Qlt_bool_iff
    | |- Qlt_bool _ _ = false => apply Qlt_bool_false_iff
    end.

(** ** The error monad and [iloc] *)

Lemma bind_Ok {A B : Type} (m : result A) (k : A -> result B) (b : B) :
  bind m k = Ok b -> exists a, m = Ok a /\ k a = Ok b.
Proof.
  destruct m as [a | e]; simpl; intro H; [eauto | discriminate].
Qed.

Lemma iloc_neg_Ok {A : Type} (s : list A) (k : nat) :
  (1 <= k <= List.length s)%nat -> exists x, iloc s (- Z.of_nat k) = Ok x.
Proof.
  intro Hk. unfold iloc.
  destruct (Z.ltb_spec (- Z.of_nat k) 0); [| lia].
  destruct (Z.ltb_spec (Z.of_nat (List.length s) + - Z.of_nat k) 0); [lia |].
  destruct (Z.leb_spec (Z.of_nat (List.length s))
              (Z.of_nat (List.length s) + - Z.of_nat k)); [lia |].
  simpl.
  destruct (nth_error s (Z.to_nat (Z.of_nat (List.length s) + - Z.of_nat k))) eqn:E;
    [eauto |].
  apply nth_error_None in E. lia.
Qed.

Lemma iloc_neg_length {A : Type} (s : list A) (k : nat) (x : A) :
  (1 <= k)%nat -> iloc s (- Z.of_nat k) = Ok x -> (k <= List.length s)%nat.
Proof.
  intros Hk. unfold iloc.
  destruct (Z.ltb_spec (- Z.of_nat k) 0); [| lia].
  destruct (Z.ltb_spec (Z.of_nat (List.length s) + - Z.of_nat k) 0);
    simpl; [discriminate | intros _; lia].
Qed.

Lemma iloc_map {A B : Type} (f : A -> B) (s : list A) (i : Z) (y : B) :
  iloc (map f s) i = Ok y -> exists x, iloc s i = Ok x /\ y = f x.
Proof.
  unfold iloc. rewrite length_map.
  destruct (_ || _); [discriminate |].
  rewrite nth_error_map.
  destruct (nth_error s _); simpl; intro H; inversion H; eauto.
Qed.

(** ** Label lists *)

Lemma append_if_app (cond : bool) (name : string) (patterns : list string) :
  append_if cond name patterns = patterns ++ (if cond then [name] else []).
Proof.
  unfold append_if. destruct cond; [reflexivity | symmetry; apply app_nil_r].
Qed.

Lemma in_collect (rules : list (bool * string)) (name : string) :
  In name (collect rules) <-> In (true, name) rules.
Proof.
  induction rules as [| [cond n] rules IH]; simpl; [tauto |].
  rewrite in_app_iff, IH. destruct cond; simpl.
  - split.
    + intros [[<- | []] | H]; auto.
    + intros [H | H]; auto. inversion H; auto.
  - split.
    + intros [[] | H]; auto.
    + intros [H | H]; auto. discriminate.
Qed.

Lemma subseq_nil_l {A : Type} (table : list A) : subseq [] table.
Proof. induction table; constructor; assumption. Qed.

Lemma subseq_app {A : Type} (l1 l2 t1 t2 : list A) :
  subseq l1 t1 -> subseq l2 t2 -> subseq (l1 ++ l2) (t1 ++ t2).
Proof.
  intros H1 H2. induction H1; simpl; try (constructor; assumption). assumption.
Qed.

Lemma subseq_In {A : Type} (l table : list A) (x : A) :
  subseq l table -> In x l -> In x table.
Proof.
  induction 1; simpl; intuition.
Qed.

Lemma subseq_NoDup {A : Type} (l table : list A) :
  subseq l table -> NoDup table -> NoDup l.
Proof.
  induction 1; intro Hnd; trivial.
  - inversion Hnd; subst. constructor; auto.
    intro Hin. eauto using subseq_In.
  - inversion Hnd; auto.
Qed.

Lemma subseq_collect (rules : list (bool * string)) :
  subseq (collect rules) (map snd rules).
Proof.
  induction rules as [| [cond n] rules IH]; simpl; [constructor |].
  destruct cond; simpl; constructor; exact IH.
Qed.

Lemma filter_collect_none (table : list string) (rules : list (bool * string)) :
  forallb (fun r => negb (mem table (snd r))) rules = true ->
  filter (mem table) (collect rules) = [].
Proof.
  induction rules as [| [cond n] rules IH]; simpl; trivial.
  intro H. apply andb_true_iff in H. destruct H as [Hn Hr].
  rewrite filter_app, (IH Hr), app_nil_r.
  destruct cond; simpl; trivial.
  apply negb_true_iff in Hn. now rewrite Hn.
Qed.

Lemma first_match_length (rules : list (bool * string)) :
  (List.length (first_match rules) <= 1)%nat.
Proof.
  induction rules as [| [cond n] rules IH]; simpl; [lia |].
  destruct cond; simpl; lia.
Qed.

(** ** The three tiers as rule tables *)

(** The cascade of the Doji family is a first match over [doji_priority]. *)
Lemma doji_cascade (current : Candle) (avg_total : Q) (patterns : list string) :
  (if _is_doji current avg_total then
     if _is_dragonfly_doji current then patterns ++ ["Dragonfly Doji"]
     else if _is_gravestone_doji current then patterns ++ ["Gravestone Doji"]
     else if (upper_shadow current <=? 0.1 * total_size current) &&
             (lower_shadow current <=? 0.1 * total_size current)
          then patterns ++ ["Doji"]
     else if _is_long_legged_doji current then patterns ++ ["Long-legged Doji"]
     else patterns ++ ["Doji"]
   else patterns)
  = patterns ++ first_match (doji_priority current).
Proof.
  unfold _is_doji, _is_dragonfly_doji, _is_gravestone_doji,
    _is_long_legged_doji, doji_priority.
  destruct (body_size current <=? 0.1 * total_size current); simpl;
    [| symmetry; apply app_nil_r].
  destruct (upper_shadow current <=? 0.1 * total_size current),
    (lower_shadow current >? 2 * body_size current),
    (lower_shadow current <=? 0.1 * total_size current),
    (upper_shadow current >? 2 * body_size current); simpl; trivial;
  destruct (upper_shadow current >? 0.2 * total_size current),
    (lower_shadow current >? 0.2 * total_size current); reflexivity.
Qed.

Lemma detect_single_inv (self : CandlestickPatternDetector) (out : list string) :
  _detect_single_candlestick_patterns self = Ok out ->
  (List.length (df self) = 0%nat /\ out = []) \/
  exists current avg_body avg_total,
    iloc (df self) (-1) = Ok current /\
    iloc (avg_body_size self) (-1) = Ok avg_body /\
    iloc (avg_total_size self) (-1) = Ok avg_total /\
    out = first_match (doji_priority current)
          ++ collect (single_rules current avg_body).
Proof.
  unfold _detect_single_candlestick_patterns.
  destruct (Nat.ltb_spec (List.length (df self)) 1) as [Hlen | Hlen].
  - intro H. inversion H. left. split; [lia | reflexivity].
  - intro H. right.
    apply bind_Ok in H. destruct H as (current & Hc & H).
    apply bind_Ok in H. destruct H as (avg_body & Hb & H).
    apply bind_Ok in H. destruct H as (avg_total & Ht & H).
    exists current, avg_body, avg_total. repeat split; trivial.
    rewrite doji_cascade in H. simpl app in H.
    rewrite !append_if_app in H.
    inversion H as [Hout]. clear H Hout.
    unfold collect, single_rules. simpl flat_map.
    destruct (_is_marubozu current avg_body), (is_bullish current);
      simpl; rewrite <- ?app_assoc, ?app_nil_r; reflexivity.
Qed.

Lemma detect_two_inv (self : CandlestickPatternDetector) (out : list string) :
  _detect_two_candlestick_patterns self = Ok out ->
  ((List.length (df self) < 2)%nat /\ out = []) \/
  exists current previous,
    (2 <= List.length (df self))%nat /\
    iloc (df self) (-1) = Ok current /\
    iloc (df self) (-2) = Ok previous /\
    out = collect (two_rules current previous).
Proof.
  unfold _detect_two_candlestick_patterns.
  destruct (Nat.ltb_spec (List.length (df self)) 2) as [Hlen | Hlen].
  - intro H. inversion H. left. split; [lia | reflexivity].
  - intro H. right.
    apply bind_Ok in H. destruct H as (current & Hc & H).
    apply bind_Ok in H. destruct H as (previous & Hp & H).
    exists current, previous. repeat split; trivial.
    rewrite !append_if_app in H.
    inversion H as [Hout]. clear H Hout.
    unfold collect, two_rules. simpl flat_map.
    rewrite <- ?app_assoc, ?app_nil_r. reflexivity.
Qed.

Lemma detect_three_inv (self : CandlestickPatternDetector) (out : list string) :
  _detect_three_candlestick_patterns self = Ok out ->
  ((List.length (df self) < 3)%nat /\ out = []) \/
  exists first second third,
    (3 <= List.length (df self))%nat /\
    iloc (df self) (-3) = Ok first /\
    iloc (df self) (-2) = Ok second /\
    iloc (df self) (-1) = Ok third /\
    out = collect (three_rules first second third).
Proof.
  unfold _detect_three_candlestick_patterns.
  destruct (Nat.ltb_spec (List.length (df self)) 3) as [Hlen | Hlen].
  - intro H. inversion H. left. split; [lia | reflexivity].
  - intro H. right.
    apply bind_Ok in H. destruct H as (first & H1 & H).
    apply bind_Ok in H. destruct H as (second & H2 & H).
    apply bind_Ok in H. destruct H as (third & H3 & H).
    exists first, second, third. repeat split; trivial.
    rewrite !append_if_app in H.
    inversion H as [Hout]. clear H Hout.
    unfold collect, three_rules. simpl flat_map.
    rewrite <- ?app_assoc, ?app_nil_r. reflexivity.
Qed.

Lemma detect_all_inv (self : CandlestickPatternDetector) (out : list string) :
  detect_all_patterns self = Ok out ->
  exists single two three,
    _detect_single_candlestick_patterns self = Ok single /\
    _detect_two_candlestick_patterns self = Ok two /\
    _detect_three_candlestick_patterns self = Ok three /\
    out = single ++ two ++ three.
Proof.
  unfold detect_all_patterns. intro H.
  apply bind_Ok in H. destruct H as (single & H1 & H).
  apply bind_Ok in H. destruct H as (two & H2 & H).
  apply bind_Ok in H. destruct H as (three & H3 & H).
  exists single, two, three. repeat split; trivial.
  inversion H. simpl. now rewrite app_assoc.
Qed.

(** ** The rolling mean *)

Lemma roll_mean_length (window : nat) (values rest : list Q) (i : nat)
    (st : Q * nat) :
  List.length (roll_mean window values i rest st) = List.length rest.
Proof.
  revert i st. induction rest as [| x rest IH]; intros i st; simpl; trivial.
  now rewrite IH.
Qed.

Lemma rolling_mean_length (window : nat) (values : list Q) :
  List.length (rolling_mean window values) = List.length values.
Proof. apply roll_mean_length. Qed.

Lemma Qsum_nonneg (l : list Q) : Forall (fun x => 0 <= x) l -> 0 <= Qsum l.
Proof.
  induction 1 as [| x l Hx _ IH]; simpl; lra.
Qed.

(** Taking one more value adds it to the sum; past the end, [nth] gives [0]
    and nothing changes. *)
Lemma Qsum_firstn_S (n : nat) (l : list Q) :
  Qsum (firstn (S n) l) == Qsum (firstn n l) + nth n l 0.
Proof.
  revert l. induction n as [| n IH]; intros [| x l]; simpl; try ring.
  specialize (IH l). simpl in IH. rewrite IH. ring.
Qed.

(** Moving a window of [S w] values one step to the right. *)
Lemma Qsum_window_slide (w k : nat) (l : list Q) :
  Qsum (firstn (S w) (skipn (S k) l))
  == Qsum (firstn (S w) (skipn k l)) - nth k l 0 + nth (k + S w) l 0.
Proof.
  revert l. induction k as [| k IH]; intros [| x l].
  - simpl. ring.
  - rewrite Qsum_firstn_S. simpl. ring.
  - simpl. ring.
  - simpl skipn. rewrite (IH l). reflexivity.
Qed.

Lemma nth_skipn_head (i : nat) (values rest : list Q) (x : Q) :
  skipn i values = x :: rest -> nth i values 0 = x /\ skipn (S i) values = rest.
Proof.
  revert values. induction i as [| i IH]; intros [| v values]; simpl;
    try discriminate.
  - intro H. inversion H. auto.
  - apply IH.
Qed.

Lemma skipn_cons_length (i : nat) (values rest : list Q) (x : Q) :
  skipn i values = x :: rest -> (i < List.length values)%nat.
Proof.
  intro H. assert (Hl := length_skipn i values). rewrite H in Hl. simpl in Hl. lia.
Qed.

Lemma trailing_window_held (window i : nat) (values : list Q) :
  trailing_window window i values = held window (S i) values.
Proof.
  unfold trailing_window, held. now rewrite Nat.add_1_r.
Qed.

Lemma held_length (window i : nat) (values : list Q) :
  (i <= List.length values)%nat ->
  List.length (held window i values) = Nat.min window i.
Proof.
  intro H. unfold held. rewrite length_firstn, length_skipn. lia.
Qed.

Lemma held_step (w i : nat) (values rest : list Q) (x : Q) :
  skipn i values = x :: rest ->
  Qsum (held (S w) (S i) values)
  == (if (S w <=? i)%nat
      then Qsum (held (S w) i values) - nth (i - S w) values 0
      else Qsum (held (S w) i values)) + x.
Proof.
  intro Hs. destruct (nth_skipn_head _ _ _ _ Hs) as [Hx _].
  unfold held. destruct (Nat.leb_spec (S w) i) as [Hle | Hlt].
  - rewrite !Nat.min_l by lia.
    replace (S i - S w)%nat with (S (i - S w)) by lia.
    rewrite Qsum_window_slide.
    replace (i - S w + S w)%nat with i by lia. rewrite Hx. reflexivity.
  - rewrite !Nat.min_r by lia.
    rewrite !Nat.sub_diag. simpl skipn.
    rewrite Qsum_firstn_S, Hx. reflexivity.
Qed.

(** The running sum and count always describe the trailing window. *)
Lemma roll_mean_spec (w : nat) (values : list Q) :
  forall (rest : list Q) (i : nat) (st : Q * nat),
    skipn i values = rest ->
    fst st == Qsum (held (S w) i values) ->
    snd st = Nat.min (S w) i ->
    forall (j : nat) (a : Q),
      nth_error (roll_mean (S w) values i rest st) j = Some a ->
      a == mean (trailing_window (S w) (i + j) values).
Proof.
  induction rest as [| x rest IH]; intros i st Hs Hsum Hn j a Hj.
  - destruct j; discriminate.
  - destruct (nth_skipn_head _ _ _ _ Hs) as [Hx Hs'].
    assert (Hi := skipn_cons_length _ _ _ _ Hs).
    assert (Hstep := held_step w i values rest x Hs).
    cbn [roll_mean] in Hj.
    set (st' := add_mean x (if (S w <=? i)%nat
                            then remove_mean (nth (i - S w) values 0) st
                            else st)) in *.
    assert (Hsum' : fst st' == Qsum (held (S w) (S i) values)).
    { rewrite Hstep. unfold st', add_mean, remove_mean.
      destruct (S w <=? i)%nat; simpl; rewrite Hsum; reflexivity. }
    assert (Hn' : snd st' = Nat.min (S w) (S i)).
    { unfold st', add_mean, remove_mean.
      destruct (Nat.leb_spec (S w) i); simpl; lia. }
    destruct j as [| j].
    + cbn [nth_error] in Hj. inversion Hj as [Ha]. clear Hj Ha.
      rewrite Nat.add_0_r, trailing_window_held.
      unfold calc_mean, mean.
      rewrite held_length by lia. rewrite Hn', Hsum'. reflexivity.
    + cbn [nth_error] in Hj. replace (i + S j)%nat with (S i + j)%nat by lia.
      exact (IH (S i) st' Hs' Hsum' Hn' j a Hj).
Qed.

Lemma rolling_mean_spec (w : nat) (values : list Q) (i : nat) :
  (i < List.length values)%nat ->
  exists a, nth_error (rolling_mean (S w) values) i = Some a /\
            a == mean (trailing_window (S w) i values).
Proof.
  intro Hi.
  destruct (nth_error (rolling_mean (S w) values) i) as [a |] eqn:E.
  - exists a. split; trivial.
    apply (roll_mean_spec w values values 0%nat (0, 0%nat)) with (j := i);
      trivial.
    simpl. reflexivity.
  - apply nth_error_None in E. rewrite rolling_mean_length in E. lia.
Qed.

(** ** Construction of the detector *)

Lemma check_columns_Ok (cols : list string) (frame : DataFrame) :
  check_columns cols frame = Ok tt <->
  forall col, In col cols -> has_column col frame = true.
Proof.
  induction cols as [| c cols IH]; simpl.
  - split; [intros _ col [] | reflexivity].
  - destruct (has_column c frame) eqn:E; simpl.
    + rewrite IH. split.
      * intros H col [<- | Hin]; auto.
      * intros H col Hin. auto.
    + split; [discriminate |]. intro H.
      specialize (H c (or_introl eq_refl)). congruence.
Qed.

Lemma check_columns_Raise (cols : list string) (frame : DataFrame) (col : string) :
  In col cols -> has_column col frame = false ->
  exists missing, In missing cols /\ has_column missing frame = false /\
    check_columns cols frame
    = Raise (ValueError ("Missing required column: " ++ missing)%string).
Proof.
  induction cols as [| c cols IH]; simpl; [intros [] |].
  intros Hin Hcol. destruct (has_column c frame) eqn:E; simpl.
  - destruct Hin as [-> | Hin]; [congruence |].
    destruct (IH Hin Hcol) as (m & Hm & Hf & Hr). eauto.
  - exists c. auto.
Qed.

(** The loop stops at the first column that is absent: the columns before
    it are present and the error names it. *)
Lemma check_columns_first_absent (cols : list string) (frame : DataFrame)
    (col : string) :
  In col cols -> has_column col frame = false ->
  exists present missing rest,
    cols = present ++ missing :: rest /\
    Forall (fun c => has_column c frame = true) present /\
    has_column missing frame = false /\
    check_columns cols frame
    = Raise (ValueError ("Missing required column: " ++ missing)%string).
Proof.
  induction cols as [| c cols IH]; simpl; [intros [] |].
  intros Hin Hcol. destruct (has_column c frame) eqn:E; simpl.
  - destruct Hin as [-> | Hin]; [congruence |].
    destruct (IH Hin Hcol) as (present & m & rest & -> & Hp & Hf & Hr).
    exists (c :: present), m, rest. repeat split; trivial.
    constructor; assumption.
  - exists [], c, cols. repeat split; trivial.
Qed.

Lemma init_inv (frame : DataFrame) (self : CandlestickPatternDetector) :
  __init__ frame = Ok self ->
  check_columns required_cols frame = Ok tt /\
  df self = map derive (rows frame) /\
  avg_body_size self = rolling_mean 20 (map body_size (df self)) /\
  avg_total_size self = rolling_mean 20 (map total_size (df self)).
Proof.
  unfold __init__, _prepare_data. intro H.
  apply bind_Ok in H. destruct H as ([] & Hc & H).
  inversion H. simpl. auto.
Qed.

Lemma init_Ok (frame : DataFrame) :
  (forall col, In col required_cols -> has_column col frame = true) ->
  exists self, __init__ frame = Ok self.
Proof.
  intro H. apply check_columns_Ok in H.
  unfold __init__, _prepare_data. rewrite H. simpl. eauto.
Qed.

(** ** No tier raises *)

Lemma detect_single_total (self : CandlestickPatternDetector) :
  List.length (avg_body_size self) = List.length (df self) ->
  List.length (avg_total_size self) = List.length (df self) ->
  exists out, _detect_single_candlestick_patterns self = Ok out.
Proof.
  intros Hb Ht. unfold _detect_single_candlestick_patterns.
  destruct (Nat.ltb_spec (List.length (df self)) 1) as [Hlen | Hlen]; [eauto |].
  change (-1)%Z with (- Z.of_nat 1)%Z.
  destruct (iloc_neg_Ok (df self) 1) as [c ->]; [lia |].
  destruct (iloc_neg_Ok (avg_body_size self) 1) as [b ->]; [lia |].
  destruct (iloc_neg_Ok (avg_total_size self) 1) as [t ->]; [lia |].
  simpl. eauto.
Qed.

Lemma detect_two_total (self : CandlestickPatternDetector) :
  exists out, _detect_two_candlestick_patterns self = Ok out.
Proof.
  unfold _detect_two_candlestick_patterns.
  destruct (Nat.ltb_spec (List.length (df self)) 2) as [Hlen | Hlen]; [eauto |].
  change (-1)%Z with (- Z.of_nat 1)%Z. change (-2)%Z with (- Z.of_nat 2)%Z.
  destruct (iloc_neg_Ok (df self) 1) as [c ->]; [lia |].
  destruct (iloc_neg_Ok (df self) 2) as [p ->]; [lia |].
  simpl. eauto.
Qed.

Lemma detect_three_total (self : CandlestickPatternDetector) :
  exists out, _detect_three_candlestick_patterns self = Ok out.
Proof.
  unfold _detect_three_candlestick_patterns.
  destruct (Nat.ltb_spec (List.length (df self)) 3) as [Hlen | Hlen]; [eauto |].
  change (-1)%Z with (- Z.of_nat 1)%Z. change (-2)%Z with (- Z.of_nat 2)%Z.
  change (-3)%Z with (- Z.of_nat 3)%Z.
  destruct (iloc_neg_Ok (df self) 3) as [c1 ->]; [lia |].
  destruct (iloc_neg_Ok (df self) 2) as [c2 ->]; [lia |].
  destruct (iloc_neg_Ok (df self) 1) as [c3 ->]; [lia |].
  simpl. eauto.
Qed.

Lemma init_lengths (frame : DataFrame) (self : CandlestickPatternDetector) :
  __init__ frame = Ok self ->
  List.length (df self) = len frame /\
  List.length (avg_body_size self) = List.length (df self) /\
  List.length (avg_total_size self) = List.length (df self).
Proof.
  intro H. destruct (init_inv _ _ H) as (_ & Hd & Hb & Ht).
  rewrite Hb, Ht, !rolling_mean_length, !length_map, Hd, length_map.
  unfold len. auto.
Qed.

Lemma detect_all_total (frame : DataFrame) (self : CandlestickPatternDetector) :
  __init__ frame = Ok self -> exists out, detect_all_patterns self = Ok out.
Proof.
  intro H. destruct (init_lengths _ _ H) as (_ & Hb & Ht).
  destruct (detect_single_total self Hb Ht) as [s Hs].
  destruct (detect_two_total self) as [t Htwo].
  destruct (detect_three_total self) as [th Hth].
  unfold detect_all_patterns. rewrite Hs, Htwo, Hth. simpl. eauto.
Qed.

(** The entry point either stops at its guard or runs the detector. *)
Lemma detect_candlestick_patterns_inv (frame : DataFrame) (out : list string) :
  detect_candlestick_patterns frame = Ok out ->
  (empty frame = true /\ out = []) \/
  (empty frame = false /\
   exists self, __init__ frame = Ok self /\ detect_all_patterns self = Ok out).
Proof.
  unfold detect_candlestick_patterns, empty.
  destruct (Nat.eqb_spec (len frame) 0) as [H0 | H0]; simpl.
  - intro H. inversion H. auto.
  - destruct (List.length (columns frame) =? 0)%nat; simpl.
    + intro H. inversion H. auto.
    + destruct (Nat.ltb_spec (len frame) 1) as [Hlt | Hge]; [lia |].
      intro H. apply bind_Ok in H. destruct H as (self & Hs & H). eauto.
Qed.

(** ** Each tier stays within its table *)

(** Decides [subseq] between lists whose labels are given. *)
Ltac subseq_tac :=
  repeat first [ apply subseq_nil_l | apply subseq_keep | apply subseq_drop ].

Lemma first_match_doji_subseq (c : Candle) :
  subseq (first_match (doji_priority c))
         ["Doji"; "Dragonfly Doji"; "Gravestone Doji"; "Long-legged Doji"].
Proof.
  unfold doji_priority. simpl.
  repeat match goal with
         | |- context [if ?b then _ else _] => destruct b
         end; subseq_tac.
Qed.

Lemma detect_single_subseq (self : CandlestickPatternDetector) (out : list string) :
  _detect_single_candlestick_patterns self = Ok out -> subseq out single_table.
Proof.
  intro H. apply detect_single_inv in H.
  destruct H as [[_ ->] | (c & b & t & _ & _ & _ & ->)]; [apply subseq_nil_l |].
  change single_table
    with (["Doji"; "Dragonfly Doji"; "Gravestone Doji"; "Long-legged Doji"]
          ++ map snd (single_rules c b)).
  apply subseq_app; [apply first_match_doji_subseq | apply subseq_collect].
Qed.

Lemma detect_two_subseq (self : CandlestickPatternDetector) (out : list string) :
  _detect_two_candlestick_patterns self = Ok out -> subseq out two_table.
Proof.
  intro H. apply detect_two_inv in H.
  destruct H as [[_ ->] | (c & p & _ & _ & _ & ->)]; [apply subseq_nil_l |].
  apply (subseq_collect (two_rules c p)).
Qed.

Lemma detect_three_subseq (self : CandlestickPatternDetector) (out : list string) :
  _detect_three_candlestick_patterns self = Ok out -> subseq out three_table.
Proof.
  intro H. apply detect_three_inv in H.
  destruct H as [[_ ->] | (c1 & c2 & c3 & _ & _ & _ & _ & ->)];
    [apply subseq_nil_l |].
  apply (subseq_collect (three_rules c1 c2 c3)).
Qed.

Lemma subseq_Forall_In (l table : list string) :
  subseq l table -> Forall (fun name => In name table) l.
Proof.
  intro H. apply Forall_forall. intros x Hx. eauto using subseq_In.
Qed.

Lemma pattern_table_NoDup : NoDup pattern_table.
Proof.
  unfold pattern_table, single_table, two_table, three_table. simpl.
  repeat (constructor; [simpl; intuition discriminate |]). constructor.
Qed.

(* ================================================================= *)
(** * The frames of the test-suite *)

Example test_doji_detection :
  detect_candlestick_patterns doji_data = Ok ["Long-legged Doji"].
Proof. vm_compute. reflexivity. Qed.

Example test_hammer_detection :
  detect_candlestick_patterns hammer_data = Ok ["Dragonfly Doji"; "Hammer"].
Proof. vm_compute. reflexivity. Qed.

Example test_bullish_engulfing_detection :
  detect_candlestick_patterns engulfing_data
  = Ok ["Bullish Marubozu"; "Bullish Engulfing"; "Piercing Pattern"].
Proof. vm_compute. reflexivity. Qed.

Example test_morning_star_detection :
  exists out, detect_candlestick_patterns morning_star_data = Ok out /\
              In "Morning Star" out.
Proof. eexists. split; [vm_compute; reflexivity | simpl; tauto]. Qed.

Example test_three_white_soldiers_detection :
  detect_candlestick_patterns sample_data = Ok ["Three White Soldiers"].
Proof. vm_compute. reflexivity. Qed.

Example test_empty_dataframe : detect_candlestick_patterns empty_df = Ok [].
Proof. reflexivity. Qed.

Example test_single_row_dataframe :
  detect_candlestick_patterns single_row_df = Ok [].
Proof. vm_compute. reflexivity. Qed.

Example test_invalid_dataframe :
  __init__ invalid_df = Raise (ValueError "Missing required column: high").
Proof. reflexivity. Qed.

(** A candle without range that is not well formed can pass the Marubozu
    test. *)
Example ill_formed_zero_range_marubozu :
  detect_candlestick_patterns ill_formed_df = Ok ["Bullish Marubozu"] /\
  total_size (derive (ohlcv 90 100 100 110 1000)) == 0.
Proof. split; [vm_compute |]; reflexivity. Qed.

(* ================================================================= *)
(** * The claims *)

(** C10: on an input without rows the entry point returns the empty list
    whatever its columns are, because its emptiness guard comes before the
    detector is built; built directly on the same frame, the detector
    rejects a frame that lacks a required column. *)
Theorem empty_input_skips_validation (frame : DataFrame) :
  len frame = 0%nat ->
  detect_candlestick_patterns frame = Ok [] /\
  forall col, In col required_cols -> has_column col frame = false ->
              exists msg, __init__ frame = Raise (ValueError msg).
Proof.
  intro Hlen. split.
  - unfold detect_candlestick_patterns, empty. rewrite Hlen. reflexivity.
  - intros col Hin Hcol.
    destruct (check_columns_Raise _ _ _ Hin Hcol) as (m & _ & _ & Hr).
    unfold __init__, _prepare_data. rewrite Hr. simpl. eauto.
Qed.

Lemma empty_input_skips_validation_witness :
  len empty_df = 0%nat /\
  detect_candlestick_patterns empty_df = Ok [] /\
  forall col, In col required_cols -> has_column col empty_df = false ->
              exists msg, __init__ empty_df = Raise (ValueError msg).
Proof.
  split; [reflexivity |].
  apply (empty_input_skips_validation empty_df). reflexivity.
Defined.

(** C2, counterexample: the frame without rows and columns lacks every
    required field, and the entry point answers with the empty label list
    instead of an error. *)
Lemma missing_field_on_empty_input_is_not_an_error :
  has_column "open" empty_df = false /\
  detect_candlestick_patterns empty_df = Ok [] /\
  has_column "open" no_column_df = false /\
  detect_candlestick_patterns no_column_df = Ok [].
Proof. repeat split. Qed.

(** C2, amended: on an input that is not empty (at least one row and one
    column), if one of [open], [high], [low], [close] is absent, the entry
    point raises the [ValueError] naming the first absent field, the one
    before which every field of [open, high, low, close] is present, and so
    returns no label list. *)
Theorem missing_field_raises (frame : DataFrame) (col : string) :
  empty frame = false ->
  In col required_cols ->
  has_column col frame = false ->
  exists present missing rest,
    required_cols = present ++ missing :: rest /\
    Forall (fun c => has_column c frame = true) present /\
    has_column missing frame = false /\
    detect_candlestick_patterns frame
    = Raise (ValueError ("Missing required column: " ++ missing)%string).
Proof.
  intros Hne Hin Hcol.
  destruct (check_columns_first_absent _ _ _ Hin Hcol)
    as (present & m & rest & Hsplit & Hp & Hf & Hr).
  exists present, m, rest. repeat split; trivial.
  unfold detect_candlestick_patterns. rewrite Hne.
  unfold empty in Hne. apply orb_false_iff in Hne. destruct Hne as [Hrows _].
  apply Nat.eqb_neq in Hrows.
  destruct (Nat.ltb_spec (len frame) 1) as [Hlt | Hge]; [lia |]. simpl.
  unfold __init__, _prepare_data. rewrite Hr. reflexivity.
Qed.

Lemma missing_field_raises_witness :
  exists present missing rest,
    required_cols = present ++ missing :: rest /\
    Forall (fun c => has_column c invalid_df = true) present /\
    has_column missing invalid_df = false /\
    detect_candlestick_patterns invalid_df
    = Raise (ValueError ("Missing required column: " ++ missing)%string).
Proof.
  apply (missing_field_raises invalid_df "close").
  - reflexivity.
  - simpl. auto.
  - reflexivity.
Defined.

(** C4: on a frame that has the four required columns detection never
    raises.  Without rows the result is empty; with one row every label
    comes from the single-candle table; with two rows from the single- and
    two-candle tables; from three rows on the three tiers are all eligible,
    and [three_tier_df] receives a label of each tier.  A tier that needs
    more rows than there are returns the empty list. *)
Theorem tier_gating (frame : DataFrame) :
  (forall col, In col required_cols -> has_column col frame = true) ->
  (exists out,
     detect_candlestick_patterns frame = Ok out /\
     (len frame = 0%nat -> out = []) /\
     (len frame = 1%nat -> Forall (fun name => In name single_table) out) /\
     (len frame = 2%nat ->
      Forall (fun name => In name (single_table ++ two_table)) out) /\
     Forall (fun name => In name pattern_table) out) /\
  (forall self, __init__ frame = Ok self ->
     (exists single, _detect_single_candlestick_patterns self = Ok single) /\
     (exists two, _detect_two_candlestick_patterns self = Ok two /\
                  ((len frame < 2)%nat -> two = [])) /\
     (exists three, _detect_three_candlestick_patterns self = Ok three /\
                    ((len frame < 3)%nat -> three = []))) /\
  (len three_tier_df = 3%nat /\
   exists out3,
     detect_candlestick_patterns three_tier_df = Ok out3 /\
     In "Bullish Marubozu" out3 /\ In "Bullish Engulfing" out3 /\
     In "Morning Star" out3).
Proof.
  intro Hcols.
  assert (Htiers : forall self, __init__ frame = Ok self ->
     (exists single, _detect_single_candlestick_patterns self = Ok single) /\
     (exists two, _detect_two_candlestick_patterns self = Ok two /\
                  ((len frame < 2)%nat -> two = [])) /\
     (exists three, _detect_three_candlestick_patterns self = Ok three /\
                    ((len frame < 3)%nat -> three = []))).
  { intros self Hself.
    destruct (init_lengths _ _ Hself) as (Hlen & Hb & Ht).
    split; [exact (detect_single_total self Hb Ht) | split].
    - destruct (detect_two_total self) as [two Htwo].
      exists two. split; trivial. intro Hlt.
      destruct (detect_two_inv _ _ Htwo) as [[_ ->] | (c & p & Hge & _)];
        [reflexivity | lia].
    - destruct (detect_three_total self) as [three Hthree].
      exists three. split; trivial. intro Hlt.
      destruct (detect_three_inv _ _ Hthree)
        as [[_ ->] | (c1 & c2 & c3 & Hge & _)]; [reflexivity | lia]. }
  split; [| split; [exact Htiers |]].
  - destruct (init_Ok frame Hcols) as [self Hself].
    destruct (Htiers self Hself)
      as ([single Hs] & (two & Htwo & Hskip2) & (three & Hthree & Hskip3)).
    assert (Hall : detect_all_patterns self = Ok (single ++ two ++ three)).
    { unfold detect_all_patterns. rewrite Hs, Htwo, Hthree. simpl.
      now rewrite app_assoc. }
    assert (H1 := subseq_Forall_In _ _ (detect_single_subseq _ _ Hs)).
    assert (H2 := subseq_Forall_In _ _ (detect_two_subseq _ _ Htwo)).
    assert (H3 := subseq_Forall_In _ _ (detect_three_subseq _ _ Hthree)).
    unfold detect_candlestick_patterns.
    destruct (empty frame || (len frame <? 1)%nat) eqn:Hguard.
    + exists []. repeat split; auto.
    + apply orb_false_iff in Hguard. destruct Hguard as [_ Hge].
      apply Nat.ltb_ge in Hge.
      exists (single ++ two ++ three). rewrite Hself. cbn [bind].
      split; [exact Hall |]. repeat split.
      * intro H0. lia.
      * intro Hlen. rewrite Hskip2, Hskip3 by lia. now rewrite !app_nil_r.
      * intro Hlen. rewrite Hskip3 by lia. rewrite app_nil_r.
        apply Forall_app. split;
          (eapply Forall_impl; [| eassumption]); intros name Hin;
          apply in_app_iff; auto.
      * unfold pattern_table. rewrite !Forall_app. repeat split;
          (eapply Forall_impl; [| eassumption]); intros name Hin;
          rewrite !in_app_iff; auto.
  - split; [reflexivity |].
    eexists. split; [vm_compute; reflexivity |]. simpl. intuition.
Qed.

Lemma tier_gating_witness :
  exists out,
    detect_candlestick_patterns single_row_df = Ok out /\
    (len single_row_df = 0%nat -> out = []) /\
    (len single_row_df = 1%nat -> Forall (fun name => In name single_table) out) /\
    (len single_row_df = 2%nat ->
     Forall (fun name => In name (single_table ++ two_table)) out) /\
    Forall (fun name => In name pattern_table) out.
Proof.
  apply (tier_gating single_row_df).
  intros col Hin. simpl in Hin.
  repeat (destruct Hin as [<- | Hin]; [reflexivity |]). destruct Hin.
Defined.

(** C5: the result of [detect_all_patterns] is the result of the
    single-candle tier, followed by that of the two-candle tier, followed by
    that of the three-candle tier; each is its table with the entries that
    did not match left out, in the order of the table.  Hence the whole
    result follows the order of [pattern_table] and repeats no label.  With
    three rows or more it is the first match of the Doji family followed by
    every matching entry of the three rule tables, nothing sorted and
    nothing removed.  The content is exact for every length of the series:
    a tier that has the rows it needs returns every matching entry of its
    table and nothing else, a tier that lacks them returns nothing; so with
    one row the result is the first match of the Doji family followed by
    the matching single-candle entries, and with two rows these followed by
    the matching two-candle entries. *)
Theorem output_order (self : CandlestickPatternDetector) (out : list string) :
  detect_all_patterns self = Ok out ->
  (exists single two three,
     _detect_single_candlestick_patterns self = Ok single /\
     _detect_two_candlestick_patterns self = Ok two /\
     _detect_three_candlestick_patterns self = Ok three /\
     out = single ++ two ++ three /\
     subseq single single_table /\
     subseq two two_table /\
     subseq three three_table /\
     subseq out pattern_table /\
     NoDup out) /\
  (forall first second third avg_body,
     iloc (df self) (-3) = Ok first ->
     iloc (df self) (-2) = Ok second ->
     iloc (df self) (-1) = Ok third ->
     iloc (avg_body_size self) (-1) = Ok avg_body ->
     out = first_match (doji_priority third)
           ++ collect (single_rules third avg_body)
           ++ collect (two_rules third second)
           ++ collect (three_rules first second third)) /\
  ((List.length (df self) = 0%nat -> out = []) /\
   (forall current avg_body,
      List.length (df self) = 1%nat ->
      iloc (df self) (-1) = Ok current ->
      iloc (avg_body_size self) (-1) = Ok avg_body ->
      out = first_match (doji_priority current)
            ++ collect (single_rules current avg_body)) /\
   (forall previous current avg_body,
      List.length (df self) = 2%nat ->
      iloc (df self) (-2) = Ok previous ->
      iloc (df self) (-1) = Ok current ->
      iloc (avg_body_size self) (-1) = Ok avg_body ->
      out = first_match (doji_priority current)
            ++ collect (single_rules current avg_body)
            ++ collect (two_rules current previous))) /\
  ((forall current avg_body,
      iloc (df self) (-1) = Ok current ->
      iloc (avg_body_size self) (-1) = Ok avg_body ->
      _detect_single_candlestick_patterns self
      = Ok (first_match (doji_priority current)
            ++ collect (single_rules current avg_body))) /\
   ((List.length (df self) < 2)%nat ->
    _detect_two_candlestick_patterns self = Ok []) /\
   (forall previous current,
      iloc (df self) (-2) = Ok previous ->
      iloc (df self) (-1) = Ok current ->
      _detect_two_candlestick_patterns self
      = Ok (collect (two_rules current previous))) /\
   ((List.length (df self) < 3)%nat ->
    _detect_three_candlestick_patterns self = Ok []) /\
   (forall first second third,
      iloc (df self) (-3) = Ok first ->
      iloc (df self) (-2) = Ok second ->
      iloc (df self) (-1) = Ok third ->
      _detect_three_candlestick_patterns self
      = Ok (collect (three_rules first second third)))).
Proof.
  intro H. destruct (detect_all_inv _ _ H) as (s & t & th & Hs & Ht & Hth & ->).
  assert (Tier1 : forall current avg_body,
      iloc (df self) (-1) = Ok current ->
      iloc (avg_body_size self) (-1) = Ok avg_body ->
      s = first_match (doji_priority current)
          ++ collect (single_rules current avg_body)).
  { intros current avg_body I1 Ib.
    assert (Hlen := iloc_neg_length _ 1 _ (le_n 1) I1).
    destruct (detect_single_inv _ _ Hs)
      as [[Hl _] | (c & b & a & Hc & Hb & _ & ->)]; [lia |].
    rewrite I1 in Hc. rewrite Ib in Hb. inversion Hc. inversion Hb.
    reflexivity. }
  assert (Skip2 : (List.length (df self) < 2)%nat -> t = []).
  { intro Hlt. destruct (detect_two_inv _ _ Ht)
      as [[_ ->] | (c & p & Hge & _)]; [reflexivity | lia]. }
  assert (Tier2 : forall previous current,
      iloc (df self) (-2) = Ok previous ->
      iloc (df self) (-1) = Ok current ->
      t = collect (two_rules current previous)).
  { intros previous current I2 I1.
    assert (Hlen := iloc_neg_length _ 2 _ (le_S _ _ (le_n 1)) I2).
    destruct (detect_two_inv _ _ Ht)
      as [[Hl _] | (c & p & _ & Hc & Hp & ->)]; [lia |].
    rewrite I1 in Hc. rewrite I2 in Hp. inversion Hc. inversion Hp.
    reflexivity. }
  assert (Skip3 : (List.length (df self) < 3)%nat -> th = []).
  { intro Hlt. destruct (detect_three_inv _ _ Hth)
      as [[_ ->] | (c1 & c2 & c3 & Hge & _)]; [reflexivity | lia]. }
  assert (Tier3 : forall first second third,
      iloc (df self) (-3) = Ok first ->
      iloc (df self) (-2) = Ok second ->
      iloc (df self) (-1) = Ok third ->
      th = collect (three_rules first second third)).
  { intros first second third I3 I2 I1.
    assert (Hlen := iloc_neg_length _ 3 _ (le_S _ _ (le_S _ _ (le_n 1))) I3).
    destruct (detect_three_inv _ _ Hth)
      as [[Hl _] | (c1 & c2 & c3 & _ & E1 & E2 & E3 & ->)]; [lia |].
    rewrite I1 in E3. rewrite I2 in E2. rewrite I3 in E1.
    inversion E1. inversion E2. inversion E3. reflexivity. }
  assert (H1 := detect_single_subseq _ _ Hs).
  assert (H2 := detect_two_subseq _ _ Ht).
  assert (H3 := detect_three_subseq _ _ Hth).
  assert (Hsub : subseq (s ++ t ++ th) pattern_table)
    by (unfold pattern_table; auto using subseq_app).
  split; [| split; [| split]].
  - exists s, t, th. repeat split; trivial.
    exact (subseq_NoDup _ _ Hsub pattern_table_NoDup).
  - intros first second third avg_body I3 I2 I1 Ib.
    rewrite (Tier1 _ _ I1 Ib), (Tier2 _ _ I2 I1), (Tier3 _ _ _ I3 I2 I1).
    now rewrite <- app_assoc.
  - split; [| split].
    + intro Hl0. rewrite Skip2, Skip3 by lia.
      destruct (detect_single_inv _ _ Hs)
        as [[_ ->] | (c & b & a & Hc & _)]; [reflexivity |].
      apply (iloc_neg_length _ 1) in Hc; lia.
    + intros current avg_body Hl1 I1 Ib.
      rewrite (Tier1 _ _ I1 Ib), Skip2, Skip3 by lia.
      now rewrite !app_nil_r.
    + intros previous current avg_body Hl2 I2 I1 Ib.
      rewrite (Tier1 _ _ I1 Ib), (Tier2 _ _ I2 I1), Skip3 by lia.
      now rewrite app_nil_r, <- app_assoc.
  - split; [| split; [| split; [| split]]].
    + intros current avg_body I1 Ib. now rewrite Hs, (Tier1 _ _ I1 Ib).
    + intro Hlt. now rewrite Ht, Skip2.
    + intros previous current I2 I1. now rewrite Ht, (Tier2 _ _ I2 I1).
    + intro Hlt. now rewrite Hth, Skip3.
    + intros first second third I3 I2 I1.
      now rewrite Hth, (Tier3 _ _ _ I3 I2 I1).
Qed.

Lemma output_order_witness :
  exists single two three,
    _detect_single_candlestick_patterns three_tier_detector = Ok single /\
    _detect_two_candlestick_patterns three_tier_detector = Ok two /\
    _detect_three_candlestick_patterns three_tier_detector = Ok three /\
    ["Bullish Marubozu"; "Bullish Engulfing"; "Piercing Pattern";
     "Tweezer Bottoms"; "Morning Star"] = single ++ two ++ three /\
    subseq single single_table /\
    subseq two two_table /\
    subseq three three_table /\
    subseq ["Bullish Marubozu"; "Bullish Engulfing"; "Piercing Pattern";
            "Tweezer Bottoms"; "Morning Star"] pattern_table /\
    NoDup ["Bullish Marubozu"; "Bullish Engulfing"; "Piercing Pattern";
           "Tweezer Bottoms"; "Morning Star"].
Proof.
  apply (output_order three_tier_detector). vm_compute. reflexivity.
Defined.

(** ** Where a label can come from *)

(** Settles a goal about a label known to be in a given table by trying
    every label of that table. *)
Ltac each_label H :=
  simpl in H;
  repeat (destruct H as [<- | H];
          [split; intro; simpl in *; intuition discriminate |]);
  destruct H.

Lemma single_table_apart (name : string) :
  In name single_table -> ~ In name two_table /\ ~ In name three_table.
Proof. unfold single_table, two_table, three_table. intro H. each_label H. Qed.

Lemma two_table_apart (name : string) :
  In name two_table -> ~ In name single_table /\ ~ In name three_table.
Proof. unfold single_table, two_table, three_table. intro H. each_label H. Qed.

Lemma three_table_apart (name : string) :
  In name three_table -> ~ In name single_table /\ ~ In name two_table.
Proof. unfold single_table, two_table, three_table. intro H. each_label H. Qed.

(** The labels of a tier appear in the result exactly when that tier emits
    them. *)
Lemma in_output (self : CandlestickPatternDetector) (out : list string) :
  detect_all_patterns self = Ok out ->
  exists single two three,
    _detect_single_candlestick_patterns self = Ok single /\
    _detect_two_candlestick_patterns self = Ok two /\
    _detect_three_candlestick_patterns self = Ok three /\
    (forall name, In name single_table -> (In name out <-> In name single)) /\
    (forall name, In name two_table -> (In name out <-> In name two)) /\
    (forall name, In name three_table -> (In name out <-> In name three)).
Proof.
  intro H. destruct (detect_all_inv _ _ H) as (s & t & th & Hs & Ht & Hth & ->).
  exists s, t, th.
  assert (H1 := detect_single_subseq _ _ Hs).
  assert (H2 := detect_two_subseq _ _ Ht).
  assert (H3 := detect_three_subseq _ _ Hth).
  split; [exact Hs | split; [exact Ht | split; [exact Hth |]]].
  split; [| split]; intros name Hin; rewrite !in_app_iff.
  - destruct (single_table_apart name Hin) as [N2 N3].
    split; [intros [Hi | [Hi | Hi]] | auto]; trivial.
    + destruct N2. eapply subseq_In; eassumption.
    + destruct N3. eapply subseq_In; eassumption.
  - destruct (two_table_apart name Hin) as [N1 N3].
    split; [intros [Hi | [Hi | Hi]] | auto]; trivial.
    + destruct N1. eapply subseq_In; eassumption.
    + destruct N3. eapply subseq_In; eassumption.
  - destruct (three_table_apart name Hin) as [N1 N2].
    split; [intros [Hi | [Hi | Hi]] | auto]; trivial.
    + destruct N1. eapply subseq_In; eassumption.
    + destruct N2. eapply subseq_In; eassumption.
Qed.

Lemma rules_functional (rules : list (bool * string)) (a b : bool) (name : string) :
  NoDup (map snd rules) -> In (a, name) rules -> In (b, name) rules -> a = b.
Proof.
  induction rules as [| [c n] rules IH]; simpl; [tauto |].
  intros Hnd Ha Hb. inversion Hnd as [| ? ? Hn Hnd']; subst.
  destruct Ha as [Ha | Ha], Hb as [Hb | Hb]; try congruence; auto.
  - inversion Ha; subst. destruct Hn.
    change name with (snd (b, name)). now apply in_map.
  - inversion Hb; subst. destruct Hn.
    change name with (snd (a, name)). now apply in_map.
Qed.

(** In a table without repeated labels, a label is collected exactly when
    its own condition holds. *)
Lemma in_collect_iff (rules : list (bool * string)) (cond : bool) (name : string) :
  NoDup (map snd rules) -> In (cond, name) rules ->
  (In name (collect rules) <-> cond = true).
Proof.
  intros Hnd Hin. rewrite in_collect. split.
  - intro Ht. symmetry. eapply rules_functional; eassumption.
  - intros ->. exact Hin.
Qed.

Lemma two_rules_NoDup (current previous : Candle) :
  NoDup (map snd (two_rules current previous)).
Proof.
  simpl. repeat (constructor; [simpl; intuition discriminate |]). constructor.
Qed.

(** With two rows or more, a two-candle label is in the result exactly when
    the two-candle table collects it. *)
Lemma in_output_two (self : CandlestickPatternDetector) (out : list string)
    (current previous : Candle) (name : string) :
  detect_all_patterns self = Ok out ->
  iloc (df self) (-1) = Ok current ->
  iloc (df self) (-2) = Ok previous ->
  In name two_table ->
  (In name out <-> In name (collect (two_rules current previous))).
Proof.
  intros H Hc Hp Hin.
  destruct (in_output _ _ H) as (s & t & th & _ & Ht & _ & _ & Htwo & _).
  rewrite (Htwo name Hin).
  destruct (detect_two_inv _ _ Ht) as [[Hlen _] | (c & p & _ & Hc' & Hp' & ->)].
  - apply (iloc_neg_length _ 2) in Hp; [lia | lia].
  - rewrite Hc in Hc'. rewrite Hp in Hp'.
    inversion Hc'. inversion Hp'. reflexivity.
Qed.

(** ** Derived columns *)

(** Exposes the columns of a derived candle. *)
Ltac derive_fields :=
  unfold derive;
  cbn [open high low close body body_size upper_shadow lower_shadow total_size
       is_bullish is_bearish] in *.

Lemma iloc_df_derive (frame : DataFrame) (self : CandlestickPatternDetector)
    (i : Z) (c : Candle) :
  __init__ frame = Ok self -> iloc (df self) i = Ok c -> exists r, c = derive r.
Proof.
  intros H Hc. destruct (init_inv _ _ H) as (_ & Hd & _).
  rewrite Hd in Hc. apply iloc_map in Hc. destruct Hc as (r & _ & ->). eauto.
Qed.

Lemma derive_direction (r : string -> Q) :
  is_bullish (derive r) && is_bearish (derive r) = false.
Proof.
  derive_fields. destruct (r "close" - r "open" >? 0) eqn:E1; trivial.
  destruct (r "close" - r "open" <? 0) eqn:E2; trivial.
  reflect_cmp. lra.
Qed.

(** The range of a candle is its body and its two shadows. *)
Lemma derive_geometry (r : string -> Q) :
  total_size (derive r)
  == upper_shadow (derive r) + body_size (derive r) + lower_shadow (derive r)
  /\ 0 <= body_size (derive r).
Proof.
  derive_fields. split; [| apply Qabs_nonneg].
  destruct (Q.max_spec (r "open") (r "close")) as [[Hlt ->] | [Hle ->]],
    (Q.min_spec (r "open") (r "close")) as [[Hlt' ->] | [Hle' ->]];
    apply (Qabs_case (r "close" - r "open")); intros; lra.
Qed.

Lemma filter_first_match_doji (c : Candle) :
  filter (mem doji_family) (first_match (doji_priority c))
  = first_match (doji_priority c).
Proof.
  unfold doji_priority. simpl.
  repeat match goal with
         | |- context [if ?b then _ else _] => destruct b
         end; reflexivity.
Qed.

(** C3: the Doji-family labels of the result are at most one, and that one
    is the first match of the priority list Dragonfly, Gravestone, plain
    Doji with both shadows at most 0.1 of the range, Long-legged, plain
    Doji. *)
Theorem doji_exclusivity (self : CandlestickPatternDetector) (out : list string) :
  detect_all_patterns self = Ok out ->
  (List.length (filter (mem doji_family) out) <= 1)%nat /\
  (forall current, iloc (df self) (-1) = Ok current ->
     filter (mem doji_family) out = first_match (doji_priority current)).
Proof.
  intro H. destruct (detect_all_inv _ _ H) as (s & t & th & Hs & Ht & Hth & ->).
  rewrite !filter_app.
  assert (Et : filter (mem doji_family) t = []).
  { destruct (detect_two_inv _ _ Ht) as [[_ ->] | (c & p & _ & _ & _ & ->)];
      [reflexivity | now apply filter_collect_none]. }
  assert (Eth : filter (mem doji_family) th = []).
  { destruct (detect_three_inv _ _ Hth)
      as [[_ ->] | (c1 & c2 & c3 & _ & _ & _ & _ & ->)];
      [reflexivity | now apply filter_collect_none]. }
  rewrite Et, Eth, !app_nil_r.
  destruct (detect_single_inv _ _ Hs)
    as [[Hlen ->] | (c & b & a & Hc & _ & _ & ->)].
  - split; [simpl; lia |]. intros current Hcur.
    apply (iloc_neg_length _ 1) in Hcur; lia.
  - rewrite filter_app, filter_first_match_doji,
      (filter_collect_none doji_family (single_rules c b)), app_nil_r
      by reflexivity.
    split; [apply first_match_length |].
    intros current Hcur. rewrite Hc in Hcur. now inversion Hcur.
Qed.

Lemma doji_exclusivity_witness :
  (List.length (filter (mem doji_family) ["Dragonfly Doji"; "Hammer"]) <= 1)%nat /\
  (forall current, iloc (df (detector_of hammer_data)) (-1) = Ok current ->
     filter (mem doji_family) ["Dragonfly Doji"; "Hammer"]
     = first_match (doji_priority current)).
Proof.
  apply (doji_exclusivity (detector_of hammer_data)). vm_compute. reflexivity.
Defined.

(** C6: with two rows or more, Harami Cross is in the result exactly when
    Bullish Harami or Bearish Harami holds for the pair and the body of the
    current candle is at most 0.1 of that candle's own range; the average
    handed to the Doji test plays no part in it. *)
Theorem harami_cross_iff (self : CandlestickPatternDetector) (out : list string)
    (current previous : Candle) :
  detect_all_patterns self = Ok out ->
  iloc (df self) (-1) = Ok current ->
  iloc (df self) (-2) = Ok previous ->
  (In "Harami Cross" out <->
   (_is_bullish_harami current previous || _is_bearish_harami current previous)
   && (body_size current <=? 0.1 * total_size current) = true) /\
  (forall avg_total,
     _is_doji current avg_total = (body_size current <=? 0.1 * total_size current)).
Proof.
  intros H Hc Hp. split; [| reflexivity].
  rewrite (in_output_two self out current previous "Harami Cross" H Hc Hp)
    by (simpl; auto 10).
  apply (in_collect_iff (two_rules current previous)
           (_is_harami_cross current previous)).
  - apply two_rules_NoDup.
  - simpl. auto 10.
Qed.

(** C7: on a detector built from a frame, when the previous candle is
    bearish, the current one bullish, [current.open < previous.close] and
    [current.close > previous.open], the result has Bullish Engulfing and
    does not have Bearish Engulfing; and the two labels are never both in
    the result. *)
Theorem engulfing_symmetry (frame : DataFrame) (self : CandlestickPatternDetector)
    (out : list string) (current previous : Candle) :
  __init__ frame = Ok self ->
  detect_all_patterns self = Ok out ->
  iloc (df self) (-1) = Ok current ->
  iloc (df self) (-2) = Ok previous ->
  (is_bearish previous = true -> is_bullish current = true ->
   open current < close previous -> close current > open previous ->
   In "Bullish Engulfing" out /\ ~ In "Bearish Engulfing" out) /\
  ~ (In "Bullish Engulfing" out /\ In "Bearish Engulfing" out).
Proof.
  intros Hself H Hc Hp.
  destruct (iloc_df_derive _ _ _ _ Hself Hp) as [rp ->].
  assert (Hdir := derive_direction rp).
  assert (Hbull : In "Bullish Engulfing" out <->
                  _is_bullish_engulfing current (derive rp) = true).
  { rewrite (in_output_two self out current (derive rp) _ H Hc Hp)
      by (simpl; auto 10).
    apply in_collect_iff; [apply two_rules_NoDup | simpl; auto 10]. }
  assert (Hbear : In "Bearish Engulfing" out <->
                  _is_bearish_engulfing current (derive rp) = true).
  { rewrite (in_output_two self out current (derive rp) _ H Hc Hp)
      by (simpl; auto 10).
    apply in_collect_iff; [apply two_rules_NoDup | simpl; auto 10]. }
  rewrite Hbull, Hbear.
  unfold _is_bullish_engulfing, _is_bearish_engulfing.
  split.
  - intros Hpb Hcb Ho Hcl.
    apply Qlt_bool_iff in Ho. apply Qlt_bool_iff in Hcl.
    rewrite Hpb, Hcb, Ho, Hcl. rewrite Hpb in Hdir.
    rewrite andb_true_r in Hdir. rewrite Hdir. simpl. split; [reflexivity | discriminate].
  - intros [H1 H2].
    destruct (is_bullish (derive rp)), (is_bearish (derive rp));
      simpl in *; discriminate.
Qed.

Lemma harami_cross_iff_witness :
  (In "Harami Cross" ["Long-legged Doji"; "Bullish Harami"; "Harami Cross"] <->
   (_is_bullish_harami (derive (ohlcv 149 180 120 150 1000))
                       (derive (ohlcv 200 205 95 100 1000))
    || _is_bearish_harami (derive (ohlcv 149 180 120 150 1000))
                          (derive (ohlcv 200 205 95 100 1000)))
   && (body_size (derive (ohlcv 149 180 120 150 1000))
       <=? 0.1 * total_size (derive (ohlcv 149 180 120 150 1000))) = true) /\
  (forall avg_total,
     _is_doji (derive (ohlcv 149 180 120 150 1000)) avg_total
     = (body_size (derive (ohlcv 149 180 120 150 1000))
        <=? 0.1 * total_size (derive (ohlcv 149 180 120 150 1000)))).
Proof.
  apply (harami_cross_iff (detector_of harami_cross_df));
    vm_compute; reflexivity.
Defined.

Lemma engulfing_symmetry_witness :
  (is_bearish (derive (ohlcv 120 128 118 115 1800)) = true ->
   is_bullish (derive (ohlcv 95 125 94 124 1900)) = true ->
   open (derive (ohlcv 95 125 94 124 1900))
   < close (derive (ohlcv 120 128 118 115 1800)) ->
   close (derive (ohlcv 95 125 94 124 1900))
   > open (derive (ohlcv 120 128 118 115 1800)) ->
   In "Bullish Engulfing"
      ["Bullish Marubozu"; "Bullish Engulfing"; "Piercing Pattern"] /\
   ~ In "Bearish Engulfing"
        ["Bullish Marubozu"; "Bullish Engulfing"; "Piercing Pattern"]) /\
  ~ (In "Bullish Engulfing"
        ["Bullish Marubozu"; "Bullish Engulfing"; "Piercing Pattern"] /\
     In "Bearish Engulfing"
        ["Bullish Marubozu"; "Bullish Engulfing"; "Piercing Pattern"]).
Proof.
  apply (engulfing_symmetry engulfing_data (detector_of engulfing_data));
    vm_compute; reflexivity.
Defined.

(** ** Doji against Marubozu *)

Lemma first_match_doji_sound (c : Candle) (name : string) :
  In name (first_match (doji_priority c)) ->
  In name doji_family /\ (body_size c <=? 0.1 * total_size c) = true.
Proof.
  unfold doji_priority. simpl.
  destruct (body_size c <=? 0.1 * total_size c); simpl.
  - repeat match goal with
           | |- context [if ?b then _ else _] => destruct b
           end; simpl; intuition.
  - intros [].
Qed.


Lemma single_rules_not_doji (c : Candle) (avg_body : Q) (name : string) :
  In name doji_family -> ~ In name (collect (single_rules c avg_body)).
Proof.
  intros Hd Hin. apply in_collect in Hin. simpl in Hd, Hin.
  destruct Hd as [<- | [<- | [<- | [<- | []]]]];
    repeat (destruct Hin as [Hin | Hin]; [discriminate Hin |]); destruct Hin.
Qed.






(** ** The baselines of a built detector *)



Lemma Forall_trailing_window (P : Q -> Prop) (window i : nat) (values : list Q) :
  Forall P values -> Forall P (trailing_window window i values).
Proof.
  intro H. unfold trailing_window.
  set (n := Nat.min window (i + 1)). set (k := (i + 1 - n)%nat).
  rewrite <- (firstn_skipn k values) in H. apply Forall_app in H.
  destruct H as [_ H].
  rewrite <- (firstn_skipn n (skipn k values)) in H. apply Forall_app in H.
  tauto.
Qed.

Lemma mean_nonneg (l : list Q) : Forall (fun x => 0 <= x) l -> 0 <= mean l.
Proof.
  intro H. unfold mean, Qdiv. apply Qmult_le_0_compat.
  - now apply Qsum_nonneg.
  - apply Qinv_le_0_compat. unfold Qle. simpl. lia.
Qed.

Lemma iloc_nth_error {A : Type} (s : list A) (i : Z) (a : A) :
  iloc s i = Ok a -> exists n, nth_error s n = Some a.
Proof.
  unfold iloc. destruct (_ || _); [discriminate |].
  destruct (nth_error s _) eqn:E; intro H; inversion H; subst; eauto.
Qed.

Lemma body_sizes_nonneg (rows : list (string -> Q)) :
  Forall (fun x => 0 <= x) (map body_size (map derive rows)).
Proof.
  rewrite map_map. apply Forall_forall. intros x Hx.
  apply in_map_iff in Hx. destruct Hx as (r & <- & _).
  apply derive_geometry.
Qed.

(** The average body size handed to the predicates is never negative. *)
Lemma avg_body_nonneg (frame : DataFrame) (self : CandlestickPatternDetector)
    (i : Z) (avg_body : Q) :
  __init__ frame = Ok self -> iloc (avg_body_size self) i = Ok avg_body ->
  0 <= avg_body.
Proof.
  intros Hself Hb. destruct (init_inv _ _ Hself) as (_ & Hd & Hbody & _).
  apply iloc_nth_error in Hb. destruct Hb as [n Hn].
  assert (Hlt : (n < List.length (map body_size (df self)))%nat).
  { rewrite <- (rolling_mean_length 20), <- Hbody.
    apply nth_error_Some. congruence. }
  destruct (rolling_mean_spec 19 _ n Hlt) as (a & Ha & Hmean).
  rewrite <- Hbody, Hn in Ha. inversion Ha; subst a.
  rewrite Hmean. apply mean_nonneg, Forall_trailing_window.
  rewrite Hd. apply body_sizes_nonneg.
Qed.



(** ** Candles without range *)






(* ================================================================= *)
(** * Further properties of the detector *)

(** ** Descriptions *)

Lemma dict_get_found (d : list (string * string)) (key default : string) :
  dict_get d key default <> default -> In key (map fst d).
Proof.
  induction d as [| [k v] d IH]; simpl; [congruence |].
  destruct (String.eqb_spec k key) as [-> | Hne]; auto.
Qed.

Lemma pattern_table_described (name : string) :
  In name pattern_table ->
  get_pattern_description name <> "Pattern description not available.".
Proof.
  unfold pattern_table, single_table, two_table, three_table. simpl.
  intro H.
  repeat (destruct H as [<- | H]; [vm_compute; discriminate |]).
  destruct H.
Qed.

Lemma described_in_pattern_table (name : string) :
  get_pattern_description name <> "Pattern description not available." ->
  In name pattern_table.
Proof.
  intro H. apply dict_get_found in H. simpl in H.
  unfold pattern_table, single_table, two_table, three_table. simpl.
  repeat (destruct H as [<- | H]; [auto 30 |]). destruct H.
Qed.

Lemma detect_all_in_table (self : CandlestickPatternDetector)
    (out : list string) (name : string) :
  detect_all_patterns self = Ok out -> In name out -> In name pattern_table.
Proof.
  intros H Hin.
  destruct (detect_all_inv _ _ H) as (s & t & th & Hs & Ht & Hth & ->).
  unfold pattern_table. rewrite !in_app_iff in *.
  destruct Hin as [Hin | [Hin | Hin]].
  - left. exact (subseq_In _ _ _ (detect_single_subseq _ _ Hs) Hin).
  - right. left. exact (subseq_In _ _ _ (detect_two_subseq _ _ Ht) Hin).
  - right. right. exact (subseq_In _ _ _ (detect_three_subseq _ _ Hth) Hin).
Qed.

(** [exemplars] follows [pattern_table] label by label, and the entry point
    emits each label on the frame listed with it. *)
Lemma exemplars_emit :
  map fst exemplars = pattern_table /\
  forallb (fun e : string * DataFrame => emits (snd e) (fst e)) exemplars = true.
Proof. split; [reflexivity | vm_compute; reflexivity]. Qed.

Lemma emits_sound (frame : DataFrame) (name : string) :
  emits frame name = true ->
  exists out, detect_candlestick_patterns frame = Ok out /\ In name out.
Proof.
  unfold emits.
  destruct (detect_candlestick_patterns frame) as [out | e]; [| discriminate].
  intro H. exists out. split; trivial.
  apply existsb_exists in H. destruct H as (x & Hin & Heq).
  apply String.eqb_eq in Heq. now subst.
Qed.

(** Every label of the tables is emitted on some frame. *)
Lemma pattern_table_emitted (name : string) :
  In name pattern_table ->
  exists frame out, detect_candlestick_patterns frame = Ok out /\ In name out.
Proof.
  destruct exemplars_emit as [Hfst Hall]. rewrite <- Hfst. intro Hin.
  apply in_map_iff in Hin. destruct Hin as ([n frame] & <- & Hin).
  rewrite forallb_forall in Hall. specialize (Hall _ Hin).
  exists frame. now apply emits_sound.
Qed.

(** The entry point emits labels of the tables only. *)
Lemma emitted_in_pattern_table (frame : DataFrame) (out : list string)
    (name : string) :
  detect_candlestick_patterns frame = Ok out -> In name out ->
  In name pattern_table.
Proof.
  intros H Hin.
  destruct (detect_candlestick_patterns_inv _ _ H)
    as [[_ ->] | (_ & self & _ & Hall)]; [destruct Hin |].
  exact (detect_all_in_table _ _ _ Hall Hin).
Qed.

(** X1: the keys of the description dictionary are exactly the labels the
    detector can emit: a name has a description of its own exactly when
    [detect_candlestick_patterns] returns it on some frame, and these names
    are the 28 labels of [pattern_table]; any other name gets the default
    text. *)
Theorem descriptions_in_sync (name : string) :
  (get_pattern_description name <> "Pattern description not available." <->
   exists frame out,
     detect_candlestick_patterns frame = Ok out /\ In name out) /\
  (get_pattern_description name <> "Pattern description not available." <->
   In name pattern_table).
Proof.
  split; split.
  - intro H. apply pattern_table_emitted. now apply described_in_pattern_table.
  - intros (frame & out & H & Hin). apply pattern_table_described.
    exact (emitted_in_pattern_table _ _ _ H Hin).
  - apply described_in_pattern_table.
  - apply pattern_table_described.
Qed.

(** X2: every label in a result of [detect_all_patterns] has a description
    of its own. *)
Theorem emitted_labels_described (self : CandlestickPatternDetector)
    (out : list string) (name : string) :
  detect_all_patterns self = Ok out -> In name out ->
  get_pattern_description name <> "Pattern description not available.".
Proof.
  intros H Hin. apply pattern_table_described.
  destruct (detect_all_inv _ _ H) as (s & t & th & Hs & Ht & Hth & ->).
  unfold pattern_table. rewrite !in_app_iff in *.
  destruct Hin as [Hin | [Hin | Hin]].
  - left. exact (subseq_In _ _ _ (detect_single_subseq _ _ Hs) Hin).
  - right. left. exact (subseq_In _ _ _ (detect_two_subseq _ _ Ht) Hin).
  - right. right. exact (subseq_In _ _ _ (detect_three_subseq _ _ Hth) Hin).
Qed.

Lemma emitted_labels_described_witness :
  get_pattern_description "Morning Star" <> "Pattern description not available.".
Proof.
  apply (emitted_labels_described three_tier_detector
           ["Bullish Marubozu"; "Bullish Engulfing"; "Piercing Pattern";
            "Tweezer Bottoms"; "Morning Star"]).
  - vm_compute. reflexivity.
  - simpl. tauto.
Defined.

(** ** A view of each tier on a built detector *)

Lemma rules_labels (rules : list (bool * string)) (cond : bool) (name : string) :
  In (cond, name) rules -> In name (map snd rules).
Proof. intro H. change name with (snd (cond, name)). now apply in_map. Qed.

Lemma single_rules_labels (c : Candle) (avg_body : Q) (cond : bool) (name : string) :
  In (cond, name) (single_rules c avg_body) ->
  In name single_table /\ ~ In name doji_family.
Proof.
  intro H. apply rules_labels in H. simpl in H.
  repeat (destruct H as [<- | H];
          [split; [simpl; tauto | simpl; intuition discriminate] |]).
  destruct H.
Qed.

Lemma single_rules_distinct (c : Candle) (avg_body : Q) :
  NoDup (map snd (single_rules c avg_body)).
Proof.
  simpl. repeat (constructor; [simpl; intuition discriminate |]). constructor.
Qed.

Lemma three_rules_distinct (first second third : Candle) :
  NoDup (map snd (three_rules first second third)).
Proof.
  simpl. repeat (constructor; [simpl; intuition discriminate |]). constructor.
Qed.

(** Either the single-candle tier is silent, or the frame has a tail candle
    and every entry of the single-candle table is in the result exactly when
    its condition holds. *)
Lemma single_tier_view (frame : DataFrame) (self : CandlestickPatternDetector)
    (out : list string) :
  __init__ frame = Ok self -> detect_all_patterns self = Ok out ->
  (List.length (df self) = 0%nat /\
   forall name, In name single_table -> ~ In name out) \/
  exists r avg_body,
    iloc (df self) (-1) = Ok (derive r) /\
    iloc (avg_body_size self) (-1) = Ok avg_body /\
    0 <= avg_body /\
    (forall name, In name doji_family ->
       (In name out <-> In name (first_match (doji_priority (derive r))))) /\
    (forall cond name, In (cond, name) (single_rules (derive r) avg_body) ->
       (In name out <-> cond = true)).
Proof.
  intros Hself H.
  destruct (in_output _ _ H) as (s & t & th & Hs & _ & _ & Hsingle & _).
  destruct (detect_single_inv _ _ Hs)
    as [[Hlen ->] | (c & b & a & Hc & Hb & _ & ->)].
  - left. split; [exact Hlen |].
    intros name Hin Hout. now apply (Hsingle name Hin) in Hout.
  - right. destruct (iloc_df_derive _ _ _ _ Hself Hc) as [r ->].
    exists r, b. split; [exact Hc | split; [exact Hb | split]].
    + exact (avg_body_nonneg _ _ _ _ Hself Hb).
    + split.
      * intros name Hfam.
        rewrite (Hsingle name) by (simpl in Hfam |- *; tauto).
        rewrite in_app_iff. split; [intros [Hi | Hi] | auto]; trivial.
        destruct (single_rules_not_doji _ _ _ Hfam Hi).
      * intros cond name Hrule.
        destruct (single_rules_labels _ _ _ _ Hrule) as [Htab Hnd].
        rewrite (Hsingle name Htab), in_app_iff.
        rewrite (in_collect_iff _ cond name (single_rules_distinct _ _) Hrule).
        split; [intros [Hi | Hi] | auto]; trivial.
        destruct Hnd. exact (proj1 (first_match_doji_sound _ _ Hi)).
Qed.

Lemma two_tier_view (frame : DataFrame) (self : CandlestickPatternDetector)
    (out : list string) :
  __init__ frame = Ok self -> detect_all_patterns self = Ok out ->
  (forall name, In name two_table -> ~ In name out) \/
  exists rc rp,
    iloc (df self) (-1) = Ok (derive rc) /\
    iloc (df self) (-2) = Ok (derive rp) /\
    (forall cond name,
       In (cond, name) (two_rules (derive rc) (derive rp)) ->
       (In name out <-> cond = true)).
Proof.
  intros Hself H.
  destruct (in_output _ _ H) as (s & t & th & _ & Ht & _ & _ & Htwo & _).
  destruct (detect_two_inv _ _ Ht) as [[_ ->] | (c & p & _ & Hc & Hp & ->)].
  - left. intros name Hin Hout. now apply (Htwo name Hin) in Hout.
  - right. destruct (iloc_df_derive _ _ _ _ Hself Hc) as [rc ->].
    destruct (iloc_df_derive _ _ _ _ Hself Hp) as [rp ->].
    exists rc, rp. split; [exact Hc | split; [exact Hp |]].
    intros cond name Hrule.
    rewrite (Htwo name) by exact (rules_labels _ _ _ Hrule).
    exact (in_collect_iff _ cond name (two_rules_NoDup _ _) Hrule).
Qed.

Lemma three_tier_view (frame : DataFrame) (self : CandlestickPatternDetector)
    (out : list string) :
  __init__ frame = Ok self -> detect_all_patterns self = Ok out ->
  (forall name, In name three_table -> ~ In name out) \/
  exists r1 r2 r3,
    iloc (df self) (-3) = Ok (derive r1) /\
    iloc (df self) (-2) = Ok (derive r2) /\
    iloc (df self) (-1) = Ok (derive r3) /\
    (forall cond name,
       In (cond, name) (three_rules (derive r1) (derive r2) (derive r3)) ->
       (In name out <-> cond = true)).
Proof.
  intros Hself H.
  destruct (in_output _ _ H) as (s & t & th & _ & _ & Hth & _ & _ & Hthree).
  destruct (detect_three_inv _ _ Hth)
    as [[_ ->] | (c1 & c2 & c3 & _ & H1 & H2 & H3 & ->)].
  - left. intros name Hin Hout. now apply (Hthree name Hin) in Hout.
  - right. destruct (iloc_df_derive _ _ _ _ Hself H1) as [r1 ->].
    destruct (iloc_df_derive _ _ _ _ Hself H2) as [r2 ->].
    destruct (iloc_df_derive _ _ _ _ Hself H3) as [r3 ->].
    exists r1, r2, r3. repeat (split; [assumption |]).
    intros cond name Hrule.
    rewrite (Hthree name) by exact (rules_labels _ _ _ Hrule).
    exact (in_collect_iff _ cond name (three_rules_distinct _ _ _) Hrule).
Qed.

(** ** Directions *)

(** Finds the entry of a rule table that carries a given label. *)
Ltac rule_in :=
  unfold single_rules, two_rules, three_rules; cbn [In]; eauto 12.

(** Splits a conjunction of tests known to hold into its tests. *)
Ltac split_tests H :=
  repeat match type of H with
    | (_ && _) = true =>
        let H' := fresh "Ht" in
        apply andb_true_iff in H; destruct H as [H H']
    end.


Lemma tail_candle_unique (self : CandlestickPatternDetector) (c1 c2 : Candle) :
  iloc (df self) (-1) = Ok c1 -> iloc (df self) (-1) = Ok c2 -> c1 = c2.
Proof. intros H1 H2. rewrite H1 in H2. now inversion H2. Qed.









(** ** Hammers, tops and Marubozu *)



Lemma hammer_geometry (c : Candle) (avg_body : Q) :
  (_is_hanging_man c avg_body = true -> _is_hammer c avg_body = true) /\
  (_is_shooting_star c avg_body = true ->
   _is_inverted_hammer c avg_body = true).
Proof.
  unfold _is_hanging_man, _is_shooting_star, _is_hammer, _is_inverted_hammer.
  split; intro H; apply andb_true_iff in H; tauto.
Qed.



(** X5: on a detector built from a frame, Hanging Man never comes without
    Hammer, nor Shooting Star without Inverted Hammer. *)
Theorem hanging_man_with_hammer (frame : DataFrame)
    (self : CandlestickPatternDetector) (out : list string) :
  __init__ frame = Ok self -> detect_all_patterns self = Ok out ->
  (In "Hanging Man" out -> In "Hammer" out) /\
  (In "Shooting Star" out -> In "Inverted Hammer" out).
Proof.
  intros Hself H.
  destruct (single_tier_view _ _ _ Hself H)
    as [[_ HS] | (r & b & _ & _ & _ & _ & HS)].
  - split; intro Hin; exfalso; apply (fun p => HS _ p Hin); simpl; tauto.
  - destruct (hammer_geometry (derive r) b) as [G1 G2].
    rewrite (HS _ "Hammer" ltac:(rule_in)),
      (HS _ "Inverted Hammer" ltac:(rule_in)),
      (HS _ "Hanging Man" ltac:(rule_in)),
      (HS _ "Shooting Star" ltac:(rule_in)).
    split; assumption.
Qed.

Lemma hanging_man_with_hammer_witness :
  (In "Hanging Man" ["Hammer"; "Hanging Man"] ->
   In "Hammer" ["Hammer"; "Hanging Man"]) /\
  (In "Shooting Star" ["Hammer"; "Hanging Man"] ->
   In "Inverted Hammer" ["Hammer"; "Hanging Man"]).
Proof.
  apply (hanging_man_with_hammer hanging_man_df (detector_of hanging_man_df));
    vm_compute; reflexivity.
Defined.

(** ** Harami Cross and candles without body *)

Lemma first_match_doji_complete (c : Candle) :
  (body_size c <=? 0.1 * total_size c) = true ->
  exists name, In name doji_family /\ In name (first_match (doji_priority c)).
Proof.
  intro Hd. unfold doji_priority. rewrite Hd. cbn [first_match andb].
  repeat match goal with
         | |- context [if ?b then _ else _] => destruct b
         end;
    eexists; (split; [| left; reflexivity]); simpl; tauto.
Qed.

(** X6: on a detector built from a frame, Harami Cross never comes alone:
    the result also holds Bullish Harami or Bearish Harami, and a label of
    the Doji family. *)
Theorem harami_cross_companions (frame : DataFrame)
    (self : CandlestickPatternDetector) (out : list string) :
  __init__ frame = Ok self -> detect_all_patterns self = Ok out ->
  In "Harami Cross" out ->
  (In "Bullish Harami" out \/ In "Bearish Harami" out) /\
  exists name, In name doji_family /\ In name out.
Proof.
  intros Hself H Hin.
  destruct (two_tier_view _ _ _ Hself H) as [HT | (rc & rp & Hc & _ & HT)].
  { exfalso. apply (fun p => HT _ p Hin). simpl. tauto. }
  apply (HT _ "Harami Cross" ltac:(rule_in)) in Hin.
  unfold _is_harami_cross, _is_doji in Hin.
  apply andb_true_iff in Hin. destruct Hin as [Hh Hd].
  split.
  - apply orb_true_iff in Hh. destruct Hh as [Hh | Hh]; [left | right].
    + now apply (HT _ "Bullish Harami" ltac:(rule_in)).
    + now apply (HT _ "Bearish Harami" ltac:(rule_in)).
  - destruct (single_tier_view _ _ _ Hself H)
      as [[Hlen _] | (r & b & Hc' & _ & _ & Hdoji & _)].
    + change (-1)%Z with (- Z.of_nat 1)%Z in Hc.
      apply iloc_neg_length in Hc; lia.
    + rewrite (tail_candle_unique _ _ _ Hc' Hc) in Hdoji.
      destruct (first_match_doji_complete _ Hd) as (name & Hfam & Hfm).
      exists name. split; [exact Hfam |]. now apply Hdoji.
Qed.

Lemma harami_cross_companions_witness :
  (In "Bullish Harami" ["Long-legged Doji"; "Bullish Harami"; "Harami Cross"] \/
   In "Bearish Harami" ["Long-legged Doji"; "Bullish Harami"; "Harami Cross"]) /\
  exists name,
    In name doji_family /\
    In name ["Long-legged Doji"; "Bullish Harami"; "Harami Cross"].
Proof.
  apply (harami_cross_companions harami_cross_df (detector_of harami_cross_df)).
  - vm_compute. reflexivity.
  - vm_compute. reflexivity.
  - simpl. tauto.
Defined.




(* ================================================================= *)
(** * Windows and columns *)

(** ** The last average *)



(** ** Detectors of related frames *)

Lemma init_detector_of (frame : DataFrame) :
  __init__ frame
  = (_ <- check_columns required_cols frame ;; Ok (detector_of frame)).
Proof. reflexivity. Qed.

(** A tier is skipped exactly when the candle it starts from is out of
    range. *)
Lemma iloc_neg_gate {A : Type} (s : list A) (n : nat) :
  (1 <= n)%nat ->
  (List.length s <? n)%nat
  = match iloc s (- Z.of_nat n) with Ok _ => false | Raise _ => true end.
Proof.
  intro Hn. destruct (Nat.ltb_spec (List.length s) n) as [Hlt | Hge].
  - destruct (iloc s (- Z.of_nat n)) eqn:E; trivial.
    apply iloc_neg_length in E; [lia | exact Hn].
  - destruct (iloc_neg_Ok s n) as [x ->]; [lia | reflexivity].
Qed.

(** X9: the result of [detect_all_patterns] is settled by the last three
    candles and the last average body size.  Two detectors that agree on
    these give the same result, labels or error, whatever their older
    candles, their older averages and their averages of the range are. *)
Theorem tail_locality (self self' : CandlestickPatternDetector) :
  (forall n, (1 <= n <= 3)%nat ->
     iloc (df self) (- Z.of_nat n) = iloc (df self') (- Z.of_nat n)) ->
  iloc (avg_body_size self) (-1) = iloc (avg_body_size self') (-1) ->
  List.length (avg_total_size self) = List.length (df self) ->
  List.length (avg_total_size self') = List.length (df self') ->
  detect_all_patterns self = detect_all_patterns self'.
Proof.
  intros H Hb Lt Lt'.
  assert (H1 := H 1%nat ltac:(lia)).
  assert (H2 := H 2%nat ltac:(lia)).
  assert (H3 := H 3%nat ltac:(lia)).
  assert (G1 := iloc_neg_gate (df self) 1 ltac:(lia)).
  assert (G2 := iloc_neg_gate (df self) 2 ltac:(lia)).
  assert (G3 := iloc_neg_gate (df self) 3 ltac:(lia)).
  assert (G1' := iloc_neg_gate (df self') 1 ltac:(lia)).
  assert (G2' := iloc_neg_gate (df self') 2 ltac:(lia)).
  assert (G3' := iloc_neg_gate (df self') 3 ltac:(lia)).
  rewrite H1 in G1. rewrite H2 in G2. rewrite H3 in G3.
  change (- Z.of_nat 1)%Z with (-1)%Z in *.
  change (- Z.of_nat 2)%Z with (-2)%Z in *.
  change (- Z.of_nat 3)%Z with (-3)%Z in *.
  assert (Es : _detect_single_candlestick_patterns self
               = _detect_single_candlestick_patterns self').
  { unfold _detect_single_candlestick_patterns.
    assert (L : forall c, iloc (df self') (-1) = Ok c ->
                (1 <= List.length (df self))%nat /\
                (1 <= List.length (df self'))%nat).
    { intros c Ec. split; [rewrite <- H1 in Ec |];
        apply (iloc_neg_length _ 1 c); trivial; lia. }
    rewrite G1, G1', H1, Hb.
    destruct (iloc (df self') (-1)) as [c | e]; [| reflexivity].
    destruct (L c eq_refl) as [L0 L1].
    cbn [bind].
    destruct (iloc (avg_body_size self') (-1)) as [b | e]; [| reflexivity].
    cbn [bind].
    destruct (iloc_neg_Ok (avg_total_size self) 1) as [a Ha]; [lia |].
    destruct (iloc_neg_Ok (avg_total_size self') 1) as [a' Ha']; [lia |].
    change (- Z.of_nat 1)%Z with (-1)%Z in Ha, Ha'.
    rewrite Ha, Ha'. reflexivity. }
  assert (Et : _detect_two_candlestick_patterns self
               = _detect_two_candlestick_patterns self').
  { unfold _detect_two_candlestick_patterns.
    rewrite G2, G2', H1, H2. reflexivity. }
  assert (Eth : _detect_three_candlestick_patterns self
                = _detect_three_candlestick_patterns self').
  { unfold _detect_three_candlestick_patterns.
    rewrite G3, G3', H1, H2, H3. reflexivity. }
  unfold detect_all_patterns. rewrite Es, Et, Eth. reflexivity.
Qed.

Lemma tail_locality_witness :
  detect_all_patterns (detector_of hammer_data)
  = detect_all_patterns hammer_tail_detector.
Proof.
  apply (tail_locality (detector_of hammer_data) hammer_tail_detector).
  - intros n Hn.
    assert (Hc : (n = 1 \/ n = 2 \/ n = 3)%nat) by lia.
    destruct Hc as [-> | [-> | ->]]; vm_compute; reflexivity.
  - vm_compute. reflexivity.
  - vm_compute. reflexivity.
  - reflexivity.
Defined.

Lemma derive_same_ohlc (r1 r2 : string -> Q) :
  same_ohlc r1 r2 -> derive r1 = derive r2.
Proof.
  intros (Ho & Hh & Hl & Hc). unfold derive. now rewrite Ho, Hh, Hl, Hc.
Qed.

(** X10: the result reads no column but [open], [high], [low] and [close]:
    two frames that have these four columns and agree on them row by row
    give the same result, whatever their other columns hold. *)
Theorem ohlc_only (f1 f2 : DataFrame) :
  (forall col, In col required_cols -> has_column col f1 = true) ->
  (forall col, In col required_cols -> has_column col f2 = true) ->
  Forall2 same_ohlc (rows f1) (rows f2) ->
  detect_candlestick_patterns f1 = detect_candlestick_patterns f2.
Proof.
  intros H1 H2 Hrows.
  assert (Hlen : len f1 = len f2) by (exact (Forall2_length Hrows)).
  assert (Hcols : forall f, has_column "open" f = true ->
                            (List.length (columns f) =? 0)%nat = false).
  { intros f Hf. unfold has_column in Hf. destruct (columns f); [discriminate |].
    reflexivity. }
  assert (Hmap : map derive (rows f1) = map derive (rows f2)).
  { induction Hrows as [| r1 r2 l1 l2 Hr _ IH]; simpl; trivial.
    now rewrite (derive_same_ohlc _ _ Hr), IH. }
  unfold detect_candlestick_patterns, empty.
  rewrite Hlen, (Hcols f1), (Hcols f2) by (apply H1 || apply H2; simpl; tauto).
  destruct ((len f2 =? 0)%nat || false || (len f2 <? 1)%nat); [reflexivity |].
  rewrite !init_detector_of.
  rewrite (proj2 (check_columns_Ok _ f1) H1), (proj2 (check_columns_Ok _ f2) H2).
  cbn [bind]. unfold detector_of. now rewrite Hmap.
Qed.

Lemma ohlc_only_witness :
  detect_candlestick_patterns hammer_data
  = detect_candlestick_patterns hammer_without_volume.
Proof.
  apply (ohlc_only hammer_data hammer_without_volume).
  - intros col Hin. simpl in Hin.
    repeat (destruct Hin as [<- | Hin]; [reflexivity |]). destruct Hin.
  - intros col Hin. simpl in Hin.
    repeat (destruct Hin as [<- | Hin]; [reflexivity |]). destruct Hin.
  - unfold hammer_data, hammer_without_volume, ohlcv_frame, sample_prefix.
    cbn [rows map app].
    repeat (constructor; [repeat split |]). constructor.
Defined.

(* ================================================================= *)
(** * Properties of [advanced_analysis.py] *)

(** ** [analyze_price_movement] *)

Lemma getitem_Return (frame : DataFrame) (key : string) :
  has_column key frame = true ->
  getitem frame key = Return (map (fun r => r key) (rows frame)).
Proof. intro H. unfold getitem. now rewrite H. Qed.

(** What [analyze_price_movement] returns when both prices are there. *)
Lemma price_movement_value (frame : DataFrame) (duration_days : Z)
    (target : Q) (direction : string) (start_price current_price : Q) :
  has_column "close" frame = true ->
  (duration_days <= Z.of_nat (len frame))%Z ->
  iloc (map (fun r => r "close") (rows frame)) (- duration_days) = Ok start_price ->
  iloc (map (fun r => r "close") (rows frame)) (-1) = Ok current_price ->
  analyze_price_movement frame duration_days target direction
  = Return (((current_price - start_price) / start_price) * 100,
            if String.eqb direction "up"
            then target <=? ((current_price - start_price) / start_price) * 100
            else ((current_price - start_price) / start_price) * 100 <=? - target).
Proof.
  intros Hcol Hd Hs Hc. unfold analyze_price_movement.
  destruct (Z.ltb_spec (Z.of_nat (len frame)) duration_days); [lia |].
  rewrite (getitem_Return _ _ Hcol). cbn [obind].
  rewrite Hs. cbn [lift obind]. rewrite Hc. reflexivity.
Qed.

(** X11: looking back one day compares the last close with itself: on a
    frame with a [close] column, at least one row and a last close that is
    not zero, [analyze_price_movement] at [duration_days = 1] returns a
    change of zero, and for a positive target the criterion is not met in
    either direction. *)
Theorem price_movement_one_day (frame : DataFrame) (target : Q)
    (direction : string) (current_price : Q) :
  has_column "close" frame = true ->
  iloc (map (fun r => r "close") (rows frame)) (-1) = Ok current_price ->
  ~ current_price == 0 ->
  0 < target ->
  exists change,
    analyze_price_movement frame 1 target direction = Return (change, false) /\
    change == 0.
Proof.
  intros Hcol Hc Hnz Ht.
  assert (Hlen : (1 <= len frame)%nat).
  { change (-1)%Z with (- Z.of_nat 1)%Z in Hc.
    apply iloc_neg_length in Hc; [| lia]. now rewrite length_map in Hc. }
  rewrite (price_movement_value frame 1 target direction
             current_price current_price Hcol ltac:(lia) Hc Hc).
  assert (Hz : (current_price - current_price) / current_price * 100 == 0)
    by (field; exact Hnz).
  eexists. split; [| exact Hz].
  f_equal. f_equal.
  destruct (String.eqb direction "up"); rewrite Hz; reflect_cmp; lra.
Qed.

Lemma price_movement_one_day_witness :
  exists change,
    analyze_price_movement sample_data 1 3 "up" = Return (change, false) /\
    change == 0.
Proof.
  apply (price_movement_one_day sample_data 3 "up" 125).
  - reflexivity.
  - reflexivity.
  - discriminate.
  - reflexivity.
Defined.

Lemma price_movement_inv (frame : DataFrame) (duration_days : Z) (target : Q)
    (direction : string) (change : Q) (met : bool) :
  analyze_price_movement frame duration_days target direction
  = Return (change, met) ->
  met = false \/
  exists start_price current_price,
    change = ((current_price - start_price) / start_price) * 100 /\
    met = (if String.eqb direction "up"
           then target <=? change else change <=? - target).
Proof.
  unfold analyze_price_movement.
  destruct (Z.of_nat (len frame) <? duration_days)%Z.
  - intro H. inversion H. now left.
  - destruct (getitem frame "close") as [col | e]; cbn [obind]; [| discriminate].
    destruct (iloc col (- duration_days)) as [s | e]; cbn [lift obind];
      [| discriminate].
    destruct (iloc col (-1)) as [c | e]; cbn [lift obind]; [| discriminate].
    intro H. inversion H. right. exists s, c. split; reflexivity.
Qed.

(** X12: for a positive target, a series that meets the criterion upwards
    does not meet it downwards (any direction other than [up] counts as
    down); the change returned is the same. *)
Theorem price_movement_one_direction (frame : DataFrame) (duration_days : Z)
    (target : Q) (direction : string) (change : Q) :
  0 < target ->
  direction <> "up" ->
  analyze_price_movement frame duration_days target "up"
  = Return (change, true) ->
  analyze_price_movement frame duration_days target direction
  = Return (change, false).
Proof.
  intros Ht Hdir Hup.
  destruct (price_movement_inv _ _ _ _ _ _ Hup) as [E | (s & c & _ & Eu)];
    [discriminate |].
  rewrite String.eqb_refl in Eu. symmetry in Eu.
  revert Hup. unfold analyze_price_movement.
  destruct (Z.of_nat (len frame) <? duration_days)%Z; [discriminate |].
  destruct (getitem frame "close") as [col | e]; cbn [obind]; [| discriminate].
  destruct (iloc col (- duration_days)) as [s' | e]; cbn [lift obind];
    [| discriminate].
  destruct (iloc col (-1)) as [c' | e]; cbn [lift obind]; [| discriminate].
  rewrite String.eqb_refl.
  replace (String.eqb direction "up") with false
    by (symmetry; now apply String.eqb_neq).
  intro H. inversion H as [[Hc Hm]]. rewrite Hc. do 2 f_equal.
  reflect_cmp. lra.
Qed.

Lemma price_movement_one_direction_witness :
  analyze_price_movement sample_data 5 3 "down" = Return (1200 # 113, false).
Proof.
  apply (price_movement_one_direction sample_data 5 3 "down" (1200 # 113)).
  - reflexivity.
  - discriminate.
  - reflexivity.
Defined.

(** X13: a look-back of zero days is a look-back over the whole series:
    [iloc[-0]] is the first row. *)
Theorem price_movement_zero_days (frame : DataFrame) (target : Q)
    (direction : string) :
  analyze_price_movement frame 0 target direction
  = analyze_price_movement frame (Z.of_nat (len frame)) target direction.
Proof.
  unfold analyze_price_movement.
  rewrite Z.ltb_irrefl.
  destruct (Z.ltb_spec (Z.of_nat (len frame)) 0) as [Hlt | _]; [lia |].
  destruct (getitem frame "close") as [col | e] eqn:Hg; cbn [obind];
    [| reflexivity].
  assert (Hcol : List.length col = len frame).
  { unfold getitem in Hg. destruct (has_column "close" frame); [| discriminate].
    inversion Hg. apply length_map. }
  assert (Hiloc : iloc col (- 0) = iloc col (- Z.of_nat (len frame))).
  { unfold iloc. rewrite Hcol. cbn [Z.opp Z.ltb Z.compare].
    destruct (len frame) as [| n] eqn:En; [reflexivity |].
    destruct (Z.ltb_spec (- Z.of_nat (S n)) 0); [| lia].
    replace (Z.of_nat (S n) + - Z.of_nat (S n))%Z with 0%Z by lia.
    reflexivity. }
  now rewrite Hiloc.
Qed.

(** ** [analyze_market_structure] *)

Lemma take_clip_nth (data : list Q) (j : nat) :
  (j < List.length data)%nat -> take_clip data (Z.of_nat j) = nth j data 0.
Proof.
  intro H. unfold take_clip. f_equal. lia.
Qed.

Lemma take_clip_In (data : list Q) (i : Z) :
  data <> [] -> In (take_clip data i) data.
Proof.
  intro H. unfold take_clip. apply nth_In.
  destruct data as [| x data]; [congruence |]. simpl List.length. lia.
Qed.

Lemma in_argrelextrema (data : list Q) (comparator : Q -> Q -> bool)
    (order i : nat) :
  In i (argrelextrema data comparator order) <->
  (i < List.length data)%nat /\
  forall shift, (1 <= shift <= order)%nat ->
    comparator (take_clip data (Z.of_nat i))
               (take_clip data (Z.of_nat i + Z.of_nat shift)) = true /\
    comparator (take_clip data (Z.of_nat i))
               (take_clip data (Z.of_nat i - Z.of_nat shift)) = true.
Proof.
  unfold argrelextrema. rewrite filter_In, in_seq, forallb_forall.
  split.
  - intros [Hi Hall]. split; [lia |]. intros shift Hs.
    apply andb_true_iff, Hall, in_seq. lia.
  - intros [Hi Hall]. split; [lia |]. intros shift Hs.
    apply andb_true_iff, Hall. apply in_seq in Hs. lia.
Qed.

(** A local maximum is at least every value at most [order] positions
    away; a local minimum is at most every such value. *)
Lemma local_max_dominates (data : list Q) (order i j : nat) :
  In i (argrelextrema data greater_equal order) ->
  (j < List.length data)%nat ->
  (i - j <= order)%nat -> (j - i <= order)%nat ->
  nth j data 0 <= nth i data 0.
Proof.
  intros Hi Hj H1 H2. apply in_argrelextrema in Hi. destruct Hi as [Hlt Hall].
  destruct (Nat.eq_dec i j) as [-> | Hne]; [apply Qle_refl |].
  destruct (Nat.lt_ge_cases i j) as [Hij | Hji].
  - destruct (Hall (j - i)%nat ltac:(lia)) as [Hp _].
    replace (Z.of_nat i + Z.of_nat (j - i))%Z with (Z.of_nat j) in Hp by lia.
    rewrite !take_clip_nth in Hp by assumption.
    unfold greater_equal in Hp. now apply Qle_bool_iff.
  - destruct (Hall (i - j)%nat ltac:(lia)) as [_ Hm].
    replace (Z.of_nat i - Z.of_nat (i - j))%Z with (Z.of_nat j) in Hm by lia.
    rewrite !take_clip_nth in Hm by assumption.
    unfold greater_equal in Hm. now apply Qle_bool_iff.
Qed.

Lemma local_min_dominated (data : list Q) (order i j : nat) :
  In i (argrelextrema data less_equal order) ->
  (j < List.length data)%nat ->
  (i - j <= order)%nat -> (j - i <= order)%nat ->
  nth i data 0 <= nth j data 0.
Proof.
  intros Hi Hj H1 H2. apply in_argrelextrema in Hi. destruct Hi as [Hlt Hall].
  destruct (Nat.eq_dec i j) as [-> | Hne]; [apply Qle_refl |].
  destruct (Nat.lt_ge_cases i j) as [Hij | Hji].
  - destruct (Hall (j - i)%nat ltac:(lia)) as [Hp _].
    replace (Z.of_nat i + Z.of_nat (j - i))%Z with (Z.of_nat j) in Hp by lia.
    rewrite !take_clip_nth in Hp by assumption.
    unfold less_equal in Hp. now apply Qle_bool_iff.
  - destruct (Hall (i - j)%nat ltac:(lia)) as [_ Hm].
    replace (Z.of_nat i - Z.of_nat (i - j))%Z with (Z.of_nat j) in Hm by lia.
    rewrite !take_clip_nth in Hm by assumption.
    unfold less_equal in Hm. now apply Qle_bool_iff.
Qed.

Lemma In_last_entries {A : Type} (n : nat) (a : list A) (x : A) :
  In x (last_entries n a) -> In x a.
Proof.
  unfold last_entries. intro H.
  rewrite <- (firstn_skipn (List.length a - n) a). apply in_or_app. now right.
Qed.

Lemma last_entries_length {A : Type} (n : nat) (a : list A) :
  List.length (last_entries n a) = Nat.min n (List.length a).
Proof. unfold last_entries. rewrite length_skipn. lia. Qed.

(** An entry of [data.iloc[positions[-3:]]] is the value at one of the
    positions. *)
Lemma recent_entry (data : list Q) (positions : list nat) (k : Z) (v : Q) :
  iloc (map (fun i => nth i data 0) (last_entries 3 positions)) k = Ok v ->
  exists i, In i positions /\ v = nth i data 0.
Proof.
  intro H. apply iloc_map in H. destruct H as (i & Hi & ->).
  apply iloc_nth_error in Hi. destruct Hi as [n Hn].
  exists i. split; [| reflexivity].
  eapply In_last_entries, nth_error_In, Hn.
Qed.

(** The value of [analyze_market_structure] on a frame that has the two
    columns it reads. *)
Lemma market_structure_value (frame : DataFrame) :
  has_column "high" frame = true -> has_column "low" frame = true ->
  analyze_market_structure frame
  = let high_col := map (fun r => r "high") (rows frame) in
    let low_col := map (fun r => r "low") (rows frame) in
    let recent_max :=
      map (fun i => nth i high_col 0)
          (last_entries 3 (argrelextrema high_col greater_equal 5)) in
    let recent_min :=
      map (fun i => nth i low_col 0)
          (last_entries 3 (argrelextrema low_col less_equal 5)) in
    if (2 <=? List.length recent_max)%nat && (2 <=? List.length recent_min)%nat
    then
      max_last <~ lift (iloc recent_max (-1)) ;;
      max_prev <~ lift (iloc recent_max (-2)) ;;
      min_last <~ lift (iloc recent_min (-1)) ;;
      min_prev <~ lift (iloc recent_min (-2)) ;;
      if (max_last >? max_prev) && (min_last >? min_prev) then Return "Uptrend"
      else if negb (max_last >? max_prev) && negb (min_last >? min_prev)
           then Return "Downtrend"
      else Return "Sideways"
    else Return "Undefined".
Proof.
  intros Hh Hl. unfold analyze_market_structure.
  rewrite (getitem_Return _ _ Hh), (getitem_Return _ _ Hl). reflexivity.
Qed.

Lemma market_structure_cases (frame : DataFrame) :
  has_column "high" frame = true -> has_column "low" frame = true ->
  let high_col := map (fun r => r "high") (rows frame) in
  let low_col := map (fun r => r "low") (rows frame) in
  let local_max := argrelextrema high_col greater_equal 5 in
  let local_min := argrelextrema low_col less_equal 5 in
  ((List.length local_max < 2 \/ List.length local_min < 2)%nat /\
   analyze_market_structure frame = Return "Undefined") \/
  ((2 <= List.length local_max)%nat /\ (2 <= List.length local_min)%nat /\
   exists i_last i_prev j_last j_prev,
     In i_last local_max /\ In i_prev local_max /\
     In j_last local_min /\ In j_prev local_min /\
     analyze_market_structure frame
     = if (nth i_last high_col 0 >? nth i_prev high_col 0) &&
          (nth j_last low_col 0 >? nth j_prev low_col 0)
       then Return "Uptrend"
       else if negb (nth i_last high_col 0 >? nth i_prev high_col 0) &&
               negb (nth j_last low_col 0 >? nth j_prev low_col 0)
            then Return "Downtrend"
       else Return "Sideways").
Proof.
  intros Hh Hl high_col low_col local_max local_min.
  rewrite (market_structure_value frame Hh Hl). cbv zeta.
  fold high_col low_col. fold local_max local_min.
  rewrite !length_map, !last_entries_length.
  destruct (Nat.leb_spec 2 (Nat.min 3 (List.length local_max))) as [H1 | H1];
    [| left; split; [lia | reflexivity]].
  destruct (Nat.leb_spec 2 (Nat.min 3 (List.length local_min))) as [H2 | H2];
    [| left; split; [lia | reflexivity]].
  right. split; [lia | split; [lia |]]. cbn [andb].
  set (recent_max := map (fun i => nth i high_col 0) (last_entries 3 local_max)).
  set (recent_min := map (fun i => nth i low_col 0) (last_entries 3 local_min)).
  assert (Lmax : (2 <= List.length recent_max)%nat)
    by (unfold recent_max; rewrite length_map, last_entries_length; lia).
  assert (Lmin : (2 <= List.length recent_min)%nat)
    by (unfold recent_min; rewrite length_map, last_entries_length; lia).
  destruct (iloc_neg_Ok recent_max 1 ltac:(lia)) as [a Ha].
  destruct (iloc_neg_Ok recent_max 2 ltac:(lia)) as [b Hb].
  destruct (iloc_neg_Ok recent_min 1 ltac:(lia)) as [c Hc].
  destruct (iloc_neg_Ok recent_min 2 ltac:(lia)) as [d Hd].
  change (- Z.of_nat 1)%Z with (-1)%Z in Ha, Hc.
  change (- Z.of_nat 2)%Z with (-2)%Z in Hb, Hd.
  rewrite Ha, Hb, Hc, Hd. cbn [lift obind].
  destruct (recent_entry _ _ _ _ Ha) as (i1 & Hi1 & ->).
  destruct (recent_entry _ _ _ _ Hb) as (i2 & Hi2 & ->).
  destruct (recent_entry _ _ _ _ Hc) as (j1 & Hj1 & ->).
  destruct (recent_entry _ _ _ _ Hd) as (j2 & Hj2 & ->).
  exists i1, i2, j1, j2. repeat split; trivial.
Qed.

(** X15: [analyze_market_structure] raises the [KeyError] of the first of
    [high] and [low] that is absent; with both columns it raises nothing and
    returns one of Uptrend, Downtrend, Sideways and Undefined. *)
Theorem market_structure_outcomes (frame : DataFrame) :
  (has_column "high" frame = false ->
   analyze_market_structure frame = Throw (KeyError "high")) /\
  (has_column "high" frame = true -> has_column "low" frame = false ->
   analyze_market_structure frame = Throw (KeyError "low")) /\
  (has_column "high" frame = true -> has_column "low" frame = true ->
   exists label,
     analyze_market_structure frame = Return label /\
     In label ["Uptrend"; "Downtrend"; "Sideways"; "Undefined"]).
Proof.
  repeat split.
  - intro H. unfold analyze_market_structure, getitem. now rewrite H.
  - intros Hh Hl. unfold analyze_market_structure, getitem.
    rewrite Hh, Hl. reflexivity.
  - intros Hh Hl.
    destruct (market_structure_cases frame Hh Hl)
      as [[_ ->] | (_ & _ & i1 & i2 & j1 & j2 & _ & _ & _ & _ & ->)].
    + eexists. split; [reflexivity | simpl; tauto].
    + destruct (_ && _); [eexists; split; [reflexivity | simpl; tauto] |].
      destruct (_ && _); eexists; (split; [reflexivity | simpl; tauto]).
Qed.

(** X16: a series of at most six rows is never an Uptrend nor Sideways:
    two swing points at most five rows apart cannot be one higher than the
    other, so both comparisons fail. *)
Theorem short_series_never_uptrend (frame : DataFrame) :
  has_column "high" frame = true -> has_column "low" frame = true ->
  (len frame <= 6)%nat ->
  analyze_market_structure frame = Return "Downtrend" \/
  analyze_market_structure frame = Return "Undefined".
Proof.
  intros Hh Hl Hlen.
  destruct (market_structure_cases frame Hh Hl)
    as [[_ ->] | (_ & _ & i1 & i2 & j1 & j2 & Hi1 & Hi2 & Hj1 & Hj2 & ->)];
    [now right | left].
  set (high_col := map (fun r => r "high") (rows frame)) in *.
  set (low_col := map (fun r => r "low") (rows frame)) in *.
  assert (Lh : (List.length high_col <= 6)%nat)
    by (unfold high_col; rewrite length_map; exact Hlen).
  assert (Ll : (List.length low_col <= 6)%nat)
    by (unfold low_col; rewrite length_map; exact Hlen).
  assert (B1 := proj1 (proj1 (in_argrelextrema _ _ _ _) Hi1)).
  assert (B2 := proj1 (proj1 (in_argrelextrema _ _ _ _) Hi2)).
  assert (B3 := proj1 (proj1 (in_argrelextrema _ _ _ _) Hj1)).
  assert (B4 := proj1 (proj1 (in_argrelextrema _ _ _ _) Hj2)).
  assert (Ehh : (nth i1 high_col 0 >? nth i2 high_col 0) = false).
  { apply Qlt_bool_false_iff.
    apply (local_max_dominates high_col 5 i2 i1 Hi2 B1); lia. }
  assert (Ehl : (nth j1 low_col 0 >? nth j2 low_col 0) = false).
  { apply Qlt_bool_false_iff.
    apply (local_min_dominated low_col 5 j1 j2 Hj1 B4); lia. }
  rewrite Ehh, Ehl. reflexivity.
Qed.

Lemma short_series_never_uptrend_witness :
  analyze_market_structure three_tier_df = Return "Downtrend" \/
  analyze_market_structure three_tier_df = Return "Undefined".
Proof.
  apply (short_series_never_uptrend three_tier_df).
  - reflexivity.
  - reflexivity.
  - vm_compute. repeat constructor.
Defined.

Lemma market_structure_outcomes_witness :
  analyze_market_structure invalid_df = Throw (KeyError "high").
Proof.
  apply (proj1 (market_structure_outcomes invalid_df)). reflexivity.
Defined.

Lemma filter_all {A : Type} (f : A -> bool) (l : list A) :
  (forall x, In x l -> f x = true) -> filter f l = l.
Proof.
  induction l as [| a l IH]; simpl; intro H; trivial.
  rewrite (H a) by auto. f_equal. apply IH. auto.
Qed.

Lemma argrelextrema_all (data : list Q) (comparator : Q -> Q -> bool)
    (order : nat) :
  (forall x y, In x data -> In y data -> comparator x y = true) ->
  argrelextrema data comparator order = seq 0 (List.length data).
Proof.
  intro H. unfold argrelextrema. apply filter_all.
  intros i Hi. apply in_seq in Hi. apply forallb_forall. intros shift _.
  assert (Hne : data <> []) by (destruct data; simpl in Hi; [lia | discriminate]).
  rewrite !H by (apply take_clip_In; exact Hne). reflexivity.
Qed.

(** X17: a series of two rows or more whose highs are all equal and whose
    lows are all equal is reported as a Downtrend. *)
Theorem flat_series_is_downtrend (frame : DataFrame) (h l : Q) :
  has_column "high" frame = true -> has_column "low" frame = true ->
  (2 <= len frame)%nat ->
  Forall (fun r => r "high" == h) (rows frame) ->
  Forall (fun r => r "low" == l) (rows frame) ->
  analyze_market_structure frame = Return "Downtrend".
Proof.
  intros Hh Hl Hlen Fh Fl.
  set (high_col := map (fun r => r "high") (rows frame)).
  set (low_col := map (fun r => r "low") (rows frame)).
  assert (Vh : forall x, In x high_col -> x == h).
  { intros x Hx. apply in_map_iff in Hx. destruct Hx as (r & <- & Hr).
    exact (proj1 (Forall_forall _ _) Fh r Hr). }
  assert (Vl : forall x, In x low_col -> x == l).
  { intros x Hx. apply in_map_iff in Hx. destruct Hx as (r & <- & Hr).
    exact (proj1 (Forall_forall _ _) Fl r Hr). }
  assert (Amax : argrelextrema high_col greater_equal 5
                 = seq 0 (List.length high_col)).
  { apply argrelextrema_all. intros x y Hx Hy. unfold greater_equal.
    apply Qle_bool_iff. rewrite (Vh x Hx), (Vh y Hy). apply Qle_refl. }
  assert (Amin : argrelextrema low_col less_equal 5
                 = seq 0 (List.length low_col)).
  { apply argrelextrema_all. intros x y Hx Hy. unfold less_equal.
    apply Qle_bool_iff. rewrite (Vl x Hx), (Vl y Hy). apply Qle_refl. }
  destruct (market_structure_cases frame Hh Hl)
    as [[Hshort _] | (_ & _ & i1 & i2 & j1 & j2 & Hi1 & Hi2 & Hj1 & Hj2 & ->)].
  - fold high_col low_col in Hshort. rewrite Amax, Amin in Hshort.
    rewrite !length_seq in Hshort. unfold high_col, low_col in Hshort.
    rewrite !length_map in Hshort. unfold len in Hlen. lia.
  - fold high_col low_col in Hi1, Hi2, Hj1, Hj2 |- *.
    assert (B1 := proj1 (proj1 (in_argrelextrema _ _ _ _) Hi1)).
    assert (B2 := proj1 (proj1 (in_argrelextrema _ _ _ _) Hi2)).
    assert (B3 := proj1 (proj1 (in_argrelextrema _ _ _ _) Hj1)).
    assert (B4 := proj1 (proj1 (in_argrelextrema _ _ _ _) Hj2)).
    assert (Ehh : (nth i1 high_col 0 >? nth i2 high_col 0) = false).
    { apply Qlt_bool_false_iff.
      rewrite (Vh _ (nth_In _ 0 B1)), (Vh _ (nth_In _ 0 B2)). apply Qle_refl. }
    assert (Ehl : (nth j1 low_col 0 >? nth j2 low_col 0) = false).
    { apply Qlt_bool_false_iff.
      rewrite (Vl _ (nth_In _ 0 B3)), (Vl _ (nth_In _ 0 B4)). apply Qle_refl. }
    rewrite Ehh, Ehl. reflexivity.
Qed.

Lemma flat_series_is_downtrend_witness :
  analyze_market_structure plateau_df = Return "Downtrend".
Proof.
  apply (flat_series_is_downtrend plateau_df 101 99).
  - reflexivity.
  - reflexivity.
  - vm_compute. repeat constructor.
  - unfold plateau_df, ohlcv_frame. cbn [rows repeat map].
    repeat (constructor; [reflexivity |]). constructor.
  - unfold plateau_df, ohlcv_frame. cbn [rows repeat map].
    repeat (constructor; [reflexivity |]). constructor.
Defined.

Lemma length_le_1 (l : list nat) (c : nat) :
  NoDup l -> (forall x, In x l -> x = c) -> (List.length l <= 1)%nat.
Proof.
  intros Hnd Hall. destruct l as [| a [| b l]]; simpl; try lia.
  assert (a = c) by (apply Hall; simpl; auto).
  assert (b = c) by (apply Hall; simpl; auto).
  subst. inversion Hnd as [| ? ? Hn _]. destruct Hn. simpl. auto.
Qed.

(** X18: a series whose highs rise strictly from each row to the next has
    a single swing high, its last row, and so is reported as Undefined, not
    as an Uptrend. *)
Theorem rising_highs_are_undefined (frame : DataFrame) :
  has_column "high" frame = true -> has_column "low" frame = true ->
  (forall i j, (i < j < len frame)%nat ->
     nth i (map (fun r => r "high") (rows frame)) 0
     < nth j (map (fun r => r "high") (rows frame)) 0) ->
  analyze_market_structure frame = Return "Undefined".
Proof.
  intros Hh Hl Hrise.
  set (high_col := map (fun r => r "high") (rows frame)) in *.
  assert (Hn : List.length high_col = len frame)
    by (unfold high_col; apply length_map).
  assert (Hone : (List.length (argrelextrema high_col greater_equal 5) <= 1)%nat).
  { apply (length_le_1 _ (len frame - 1)).
    - unfold argrelextrema. apply NoDup_filter, seq_NoDup.
    - intros i Hi. apply in_argrelextrema in Hi. destruct Hi as [Hlt Hall].
      destruct (Nat.eq_dec i (len frame - 1)) as [E | Hne]; [exact E |].
      exfalso. destruct (Hall 1%nat ltac:(lia)) as [Hp _].
      replace (Z.of_nat i + Z.of_nat 1)%Z with (Z.of_nat (S i)) in Hp by lia.
      rewrite !take_clip_nth in Hp by lia.
      unfold greater_equal in Hp. apply Qle_bool_iff in Hp.
      assert (Hlt' := Hrise i (S i) ltac:(lia)). lra. }
  destruct (market_structure_cases frame Hh Hl) as [[_ E] | (H2 & _)];
    [exact E |].
  fold high_col in H2. lia.
Qed.

Lemma rising_highs_are_undefined_witness :
  analyze_market_structure staircase_df = Return "Undefined".
Proof.
  apply (rising_highs_are_undefined staircase_df).
  - reflexivity.
  - reflexivity.
  - intros i j Hij. change (len staircase_df) with 8%nat in Hij.
    do 8 (destruct i as [| i];
          [do 8 (destruct j as [| j]; [first [lia | reflexivity] |]); lia |]).
    lia.
Defined.

(** ** The Price Action Breakout strategy *)

Lemma keyword_classes (p : string) :
  In p pattern_table ->
  (existsb (fun bullish => contains bullish (lower p)) bullish_keywords
   = mem counted_bullish p) /\
  (existsb (fun bearish => contains bearish (lower p)) bearish_keywords
   = mem counted_bearish p).
Proof.
  unfold pattern_table, single_table, two_table, three_table. simpl.
  intro H.
  repeat (destruct H as [<- | H]; [split; vm_compute; reflexivity |]).
  destruct H.
Qed.

Lemma mem_In (table : list string) (name : string) :
  mem table name = true <-> In name table.
Proof.
  unfold mem. rewrite existsb_exists. split.
  - intros (x & Hx & E). apply String.eqb_eq in E. now subst.
  - intro H. exists name. split; [exact H | apply String.eqb_refl].
Qed.

(** X19: on a result of the detector the keyword search of the Price
    Action Breakout strategy counts as bullish exactly the labels of
    [counted_bullish] and as bearish exactly those of [counted_bearish]; no
    label is counted both ways, and the Doji family, Spinning Top, Harami
    Cross and the Tweezers are counted neither way. *)
Theorem breakout_keyword_classes (self : CandlestickPatternDetector)
    (out : list string) (p : string) :
  detect_all_patterns self = Ok out ->
  (In p (bullish_patterns out) <-> In p out /\ In p counted_bullish) /\
  (In p (bearish_patterns out) <-> In p out /\ In p counted_bearish) /\
  ~ (In p (bullish_patterns out) /\ In p (bearish_patterns out)).
Proof.
  intro H.
  assert (Hb : In p (bullish_patterns out) <-> In p out /\ In p counted_bullish).
  { unfold bullish_patterns. rewrite filter_In. split; intros [Hin Hk].
    - split; [exact Hin |].
      rewrite (proj1 (keyword_classes p (detect_all_in_table _ _ _ H Hin))) in Hk.
      now apply mem_In.
    - split; [exact Hin |].
      rewrite (proj1 (keyword_classes p (detect_all_in_table _ _ _ H Hin))).
      now apply mem_In. }
  assert (Hs : In p (bearish_patterns out) <-> In p out /\ In p counted_bearish).
  { unfold bearish_patterns. rewrite filter_In. split; intros [Hin Hk].
    - split; [exact Hin |].
      rewrite (proj2 (keyword_classes p (detect_all_in_table _ _ _ H Hin))) in Hk.
      now apply mem_In.
    - split; [exact Hin |].
      rewrite (proj2 (keyword_classes p (detect_all_in_table _ _ _ H Hin))).
      now apply mem_In. }
  split; [exact Hb | split; [exact Hs |]].
  rewrite Hb, Hs. intros [[_ H1] [_ H2]]. simpl in H1, H2.
  repeat (destruct H1 as [<- | H1]; [intuition discriminate |]). destruct H1.
Qed.

Lemma breakout_keyword_classes_witness :
  (In "Hammer" (bullish_patterns ["Hammer"; "Hanging Man"]) <->
   In "Hammer" ["Hammer"; "Hanging Man"] /\ In "Hammer" counted_bullish) /\
  (In "Hammer" (bearish_patterns ["Hammer"; "Hanging Man"]) <->
   In "Hammer" ["Hammer"; "Hanging Man"] /\ In "Hammer" counted_bearish) /\
  ~ (In "Hammer" (bullish_patterns ["Hammer"; "Hanging Man"]) /\
     In "Hammer" (bearish_patterns ["Hammer"; "Hanging Man"])).
Proof.
  apply (breakout_keyword_classes (detector_of hanging_man_df)).
  vm_compute. reflexivity.
Defined.



(* ================================================================= *)
(** * Warm-up and containment *)




Lemma harami_engulfing_tests_clash (rc rp : string -> Q) :
  well_formed (derive rc) ->
  (_is_bullish_engulfing (derive rc) (derive rp) = true \/
   _is_bearish_engulfing (derive rc) (derive rp) = true) ->
  (_is_bullish_harami (derive rc) (derive rp) = true \/
   _is_bearish_harami (derive rc) (derive rp) = true) ->
  False.
Proof.
  intros Hwf He Hh. assert (Hdir := derive_direction rp).
  unfold well_formed in Hwf. destruct Hwf as (W1 & W2 & W3 & W4).
  unfold _is_bullish_engulfing, _is_bearish_engulfing in He.
  unfold _is_bullish_harami, _is_bearish_harami in Hh.
  destruct He as [He | He], Hh as [Hh | Hh]; split_tests He; split_tests Hh;
    try (rewrite He, Hh in Hdir; discriminate);
    try (rewrite Hh, He in Hdir; discriminate);
    reflect_cmp; lra.
Qed.

(** X22: on a detector built from a frame whose tail candle is well formed
    ([low <= open, close <= high]), an Engulfing label never comes with a
    Harami label or with Harami Cross. *)
Theorem engulfing_excludes_harami (frame : DataFrame)
    (self : CandlestickPatternDetector) (out : list string) (current : Candle)
    (engulfing harami : string) :
  __init__ frame = Ok self -> detect_all_patterns self = Ok out ->
  iloc (df self) (-1) = Ok current -> well_formed current ->
  In engulfing ["Bullish Engulfing"; "Bearish Engulfing"] ->
  In harami ["Bullish Harami"; "Bearish Harami"; "Harami Cross"] ->
  ~ (In engulfing out /\ In harami out).
Proof.
  intros Hself H Hcur Hwf He Hh [Hie Hih].
  destruct (two_tier_view _ _ _ Hself H) as [HT | (rc & rp & Hc & _ & HT)].
  { apply (fun q => HT _ q Hie). simpl in He |- *. tauto. }
  rewrite (tail_candle_unique _ _ _ Hcur Hc) in Hwf.
  apply (harami_engulfing_tests_clash rc rp Hwf).
  - simpl in He. destruct He as [<- | [<- | []]].
    + left. now apply (HT _ "Bullish Engulfing" ltac:(rule_in)).
    + right. now apply (HT _ "Bearish Engulfing" ltac:(rule_in)).
  - simpl in Hh. destruct Hh as [<- | [<- | [<- | []]]].
    + left. now apply (HT _ "Bullish Harami" ltac:(rule_in)).
    + right. now apply (HT _ "Bearish Harami" ltac:(rule_in)).
    + apply (HT _ "Harami Cross" ltac:(rule_in)) in Hih.
      unfold _is_harami_cross in Hih. apply andb_true_iff in Hih.
      destruct Hih as [Hih _]. now apply orb_true_iff in Hih.
Qed.

Lemma engulfing_excludes_harami_witness :
  ~ (In "Bullish Engulfing"
        ["Bullish Marubozu"; "Bullish Engulfing"; "Piercing Pattern"] /\
     In "Bullish Harami"
        ["Bullish Marubozu"; "Bullish Engulfing"; "Piercing Pattern"]).
Proof.
  apply (engulfing_excludes_harami engulfing_data (detector_of engulfing_data)
           _ (derive (ohlcv 95 125 94 124 1900))).
  - vm_compute. reflexivity.
  - vm_compute. reflexivity.
  - vm_compute. reflexivity.
  - repeat split; vm_compute; discriminate.
  - simpl. tauto.
  - simpl. tauto.
Defined.
